(** * nestjs-role-based-auth: user directory, authentication service and
      role guard, embedded as pure Rocq functions over an explicit store.

    The asynchronous TypeScript services are read sequentially: every
    [await] is a step of a state-and-exception computation over the
    [World] (the MongoDB collection behind [userModel], plus a log of the
    side effects the services trigger).  An exception thrown by a service
    leaves in the world whatever had been written before it was thrown. *)

From Stdlib Require Import String Ascii List Bool PeanoNat NArith.
Import ListNotations.
Open Scope string_scope.
Open Scope list_scope.

(* ------------------------------------------------------------------ *)
(** ** Data model (user.schema.ts) *)
(* ------------------------------------------------------------------ *)

(** A MongoDB ObjectId is a 12-byte value; it is kept as the number its
    24 hexadecimal digits denote. *)
Definition ObjectId := N.

(** [UserDocument = User & Document]: the three schema paths and the
    store-assigned [_id]. *)
Record UserDocument : Type := mkUserDocument {
  _id : ObjectId;
  username : string;
  password : string;
  roles : list string
}.

(** [User], as the body of a full update (PUT). *)
Record User : Type := mkUser {
  user_username : string;
  user_password : string;
  user_roles : list string
}.

(** [Partial<User>]: every property may be absent ([None] is JavaScript's
    [undefined]). *)
Record PartialUser : Type := mkPartialUser {
  partial_username : option string;
  partial_password : option string;
  partial_roles : option (list string)
}.

(** Mongoose's bookkeeping of a document, the [InternalCache] it keeps
    under [$__]; nothing here reads its contents. *)
Inductive InternalCache : Type := internalCache.

(** The own enumerable properties of a hydrated Mongoose document, which
    are what an object spread or rest pattern copies: [$__], [$isNew] and
    [_doc], the raw record that holds every schema path, the password
    included.  The schema paths themselves ([username], [password],
    [roles]) and [_id] are accessors of the prototype that read [_doc];
    they are not own properties of the document. *)
Record OwnProperties : Type := mkOwnProperties {
  cache : InternalCache;       (* $__ *)
  isNew : bool;                (* $isNew *)
  _doc : UserDocument
}.

(** Schema of [User]: [@Prop({ type: [String], default: ['user'] })]. *)
Definition default_roles : list string := ["user"].

(** Schema of [User]: [@Prop({ required: true })] on [username] and on
    [password]; the required validator of a string path rejects a missing
    value and the empty string. *)
Definition required (v : option string) : bool :=
  match v with
  | Some s => negb (s =? EmptyString)
  | None => false
  end.

Definition validateSync (doc : UserDocument) : bool :=
  required (Some (username doc)) && required (Some (password doc)).

(** JavaScript truthiness of an optional string: [undefined] and [''] are
    falsy, every other string is truthy. *)
Definition truthy (v : option string) : bool :=
  match v with
  | Some s => negb (s =? EmptyString)
  | None => false
  end.

(* ------------------------------------------------------------------ *)
(** ** ObjectId casting ([Types.ObjectId.isValid], Mongoose's cast of
       an [_id] filter) *)
(* ------------------------------------------------------------------ *)

Definition hexDigit (c : ascii) : option N :=
  let n := N_of_ascii c in
  if (48 <=? n)%N && (n <=? 57)%N then Some (n - 48)%N
  else if (97 <=? n)%N && (n <=? 102)%N then Some (n - 87)%N
  else if (65 <=? n)%N && (n <=? 70)%N then Some (n - 55)%N
  else None.

Fixpoint parseHex (s : string) (acc : N) : option N :=
  match s with
  | EmptyString => Some acc
  | String c rest =>
      match hexDigit c with
      | Some d => parseHex rest (16 * acc + d)%N
      | None => None
      end
  end.

(** A string denotes an ObjectId when it is 24 hexadecimal digits; this is
    the one reading used for [Types.ObjectId.isValid] and for the cast
    Mongoose applies to an [_id] in a query.  (The 12-character strings
    that some driver versions also take are left out.) *)
Definition castObjectId (id : string) : option ObjectId :=
  if (String.length id =? 24)%nat then parseHex id 0%N else None.

Definition isValid (id : string) : bool :=
  match castObjectId id with
  | Some _ => true
  | None => false
  end.

(* ------------------------------------------------------------------ *)
(** ** Exceptions and the computation monad *)
(* ------------------------------------------------------------------ *)

Inductive Exception : Type :=
  | NotFoundException (message : string)
  | ConflictException (message : string)
  | UnauthorizedException (message : string)
  | ForbiddenException (message : string)
  | CastError (value : string)        (* Mongoose: Cast to ObjectId failed *)
  | ValidationError                   (* Mongoose: a required path is empty *)
  | DuplicateKeyError                 (* MongoDB: E11000 on the _id index *)
  | BcryptError.                      (* bcrypt: data and salt arguments required *)

(** Side effects the services trigger, in the order they happen. *)
Inductive Event : Type :=
  | EvHash (plaintext : string)        (* bcrypt.hash was computed *)
  | EvCreate (doc : UserDocument)      (* userModel.create inserted doc *)
  | EvSave (doc : UserDocument)        (* doc.save() wrote doc *)
  | EvDelete (id : ObjectId).          (* findByIdAndDelete removed a doc *)

Record World : Type := mkWorld {
  users : list UserDocument;           (* the collection, in insertion order *)
  trace : list Event
}.

Inductive Outcome (A : Type) : Type :=
  | Ok (a : A)
  | Throw (e : Exception).
Arguments Ok {A} a.
Arguments Throw {A} e.

Definition M (A : Type) : Type := World -> Outcome A * World.

Definition ret {A : Type} (a : A) : M A := fun w => (Ok a, w).

Definition throw {A : Type} (e : Exception) : M A := fun w => (Throw e, w).

Definition bind {A B : Type} (c : M A) (k : A -> M B) : M B :=
  fun w =>
    match c w with
    | (Ok a, w') => k a w'
    | (Throw e, w') => (Throw e, w')
    end.

Definition emit (ev : Event) : M unit :=
  fun w => (Ok tt, mkWorld (users w) (trace w ++ [ev])).

Definition setUsers (us : list UserDocument) : M unit :=
  fun w => (Ok tt, mkWorld us (trace w)).

Definition getUsers : M (list UserDocument) := fun w => (Ok (users w), w).

Declare Scope service_scope.
Delimit Scope service_scope with service.
Notation "x <- c ;; k" := (bind c (fun x => k))
  (at level 100, c at next level, right associativity) : service_scope.
Notation "c ;;; k" := (bind c (fun _ => k))
  (at level 100, right associativity) : service_scope.
Open Scope service_scope.

(** *** Postconditions of computations

    [wp c Q w]: running [c] from [w] ends, normally or with an exception,
    in an outcome and a world that satisfy [Q]. *)

Definition wp {A : Type} (c : M A) (Q : Outcome A -> World -> Prop)
  (w : World) : Prop :=
  Q (fst (c w)) (snd (c w)).

(* ------------------------------------------------------------------ *)
(** ** The Mongoose model [userModel : Model<UserDocument>] *)
(* ------------------------------------------------------------------ *)

Definition byUsername (name : string) (d : UserDocument) : bool :=
  username d =? name.

Definition byId (oid : ObjectId) (d : UserDocument) : bool :=
  (_id d =? oid)%N.

(** [userModel.find()] *)
Definition Model_find : M (list UserDocument) := getUsers.

(** [userModel.findOne({ username })]: the first document, in collection
    order, whose username is exactly the given one.  An [undefined]
    username matches no document, since every document has one. *)
Definition Model_findOne (name : option string) : M (option UserDocument) :=
  us <- getUsers ;;
  match name with
  | Some n => ret (find (byUsername n) us)
  | None => ret None
  end.

(** [userModel.findById(id)]: the id is cast to an ObjectId first; a
    string that is not one makes the query fail with a [CastError]. *)
Definition Model_findById (id : string) : M (option UserDocument) :=
  match castObjectId id with
  | None => throw (CastError id)
  | Some oid => us <- getUsers ;; ret (find (byId oid) us)
  end.

(** [userModel.exists({ _id: id })] *)
Definition Model_exists (id : string) : M bool :=
  match castObjectId id with
  | None => throw (CastError id)
  | Some oid => us <- getUsers ;; ret (existsb (byId oid) us)
  end.

Fixpoint removeFirst (p : UserDocument -> bool) (us : list UserDocument)
  : list UserDocument :=
  match us with
  | [] => []
  | d :: rest => if p d then rest else d :: removeFirst p rest
  end.

(** [userModel.findByIdAndDelete(id)] *)
Definition Model_findByIdAndDelete (id : string) : M (option UserDocument) :=
  match castObjectId id with
  | None => throw (CastError id)
  | Some oid =>
      us <- getUsers ;;
      match find (byId oid) us with
      | None => ret None
      | Some d =>
          setUsers (removeFirst (byId oid) us) ;;;
          emit (EvDelete oid) ;;;
          ret (Some d)
      end
  end.

(** [userModel.create({ username, password })]: the schema default fills
    [roles], the document is validated, and it is inserted under the
    ObjectId [oid] generated for it.  The [_id] index is unique. *)
Definition Model_create (oid : ObjectId) (name : option string) (pw : string)
  : M UserDocument :=
  if required name && required (Some pw) then
    let doc := mkUserDocument oid
                 (match name with Some n => n | None => EmptyString end)
                 pw default_roles in
    us <- getUsers ;;
    if existsb (byId oid) us then throw DuplicateKeyError
    else
      setUsers (us ++ [doc]) ;;;
      emit (EvCreate doc) ;;;
      ret doc
  else throw ValidationError.

Fixpoint replaceFirst (p : UserDocument -> bool) (doc : UserDocument)
  (us : list UserDocument) : list UserDocument :=
  match us with
  | [] => []
  | d :: rest => if p d then doc :: rest else d :: replaceFirst p doc rest
  end.

(** [doc.save()]: the document is validated against the schema and
    written over the stored document that has its [_id]. *)
Definition Document_save (doc : UserDocument) : M unit :=
  if validateSync doc then
    us <- getUsers ;;
    setUsers (replaceFirst (byId (_id doc)) doc us) ;;;
    emit (EvSave doc)
  else throw ValidationError.

Definition setUsername (d : UserDocument) (n : string) : UserDocument :=
  mkUserDocument (_id d) n (password d) (roles d).

Definition setPassword (d : UserDocument) (h : string) : UserDocument :=
  mkUserDocument (_id d) (username d) h (roles d).

Definition setRoles (d : UserDocument) (rs : list string) : UserDocument :=
  mkUserDocument (_id d) (username d) (password d) rs.

(** What a template literal prints for a possibly absent string. *)
Definition template (v : option string) : string :=
  match v with
  | Some s => s
  | None => "undefined"
  end.

(* ------------------------------------------------------------------ *)
(** ** Injected services *)
(* ------------------------------------------------------------------ *)

(** The [bcrypt] module: [hash data rounds] draws a salt, which is made an
    explicit argument here; [compare data encrypted]. *)
Class Bcrypt : Type := {
  bcrypt_hash : string -> nat -> string -> string;
  bcrypt_compare : string -> string -> bool
}.

(** [ConfigService]: the one setting the services read. *)
Class ConfigService : Type := {
  BCRYPT_SALT_ROUNDS : nat
}.

(** The payload [AuthService.login] signs. *)
Record JwtPayload : Type := mkJwtPayload {
  payload_username : string;
  sub : ObjectId;
  payload_roles : list string
}.

(** [JwtService.sign], and the verification passport-jwt performs with the
    same secret ([None] for a token whose signature or expiry is bad). *)
Class JwtService : Type := {
  jwt_sign : JwtPayload -> string;
  jwt_verify : string -> option JwtPayload
}.

(** Values the environment draws during one service call: the ObjectId
    generated for a document that is created, and the salt of a hash. *)
Record Fresh : Type := mkFresh {
  fresh_oid : ObjectId;
  fresh_salt : string
}.

(** ** The role enum, the identity of a request, and [RolesGuard] *)

Module Role.

(** Modelled from the spec: the enum of common/enums/role.enum.ts, which
    is not among the sources; a role is the label a stored role list
    holds. *)
Definition t : Type := string.

(** Modelled from the spec: the label of [Role.Admin] is "admin". *)
Definition Admin : t := "admin".

(** Modelled from the spec: the label of [Role.User] is "user". *)
Definition User : t := "user".

End Role.

(** [request.user] after the token check: what [JwtStrategy.validate]
    returns.  [roles] is optional, as the guard's [user?.roles?.] reads it. *)
Record Identity : Type := mkIdentity {
  userId : ObjectId;
  identity_username : string;
  identity_roles : option (list string)
}.

(** [JwtStrategy.validate(payload)] *)
Definition JwtStrategy_validate (payload : JwtPayload) : Identity :=
  mkIdentity (sub payload) (payload_username payload)
             (Some (payload_roles payload)).

(** [HasRoles(...roles) = SetMetadata('roles', roles)]: the metadata of a
    decorated handler; an undecorated one has [None]. *)
Definition HasRoles (rs : list Role.t) : option (list Role.t) := Some rs.

(** [reflector.getAllAndOverride('roles', [handler, class])]: the first
    target that has the metadata wins. *)
Definition getAllAndOverride (handlerMeta classMeta : option (list Role.t))
  : option (list Role.t) :=
  match handlerMeta with
  | Some rs => Some rs
  | None => classMeta
  end.

(** [array.includes(role)] *)
Definition includes (rs : list string) (role : string) : bool :=
  existsb (String.eqb role) rs.

(** [user?.roles?.includes(role)], read as a condition: [undefined] is
    falsy. *)
Definition userHasRole (user : option Identity) (role : Role.t) : bool :=
  match user with
  | Some u =>
      match identity_roles u with
      | Some rs => includes rs role
      | None => false
      end
  | None => false
  end.

(** [RolesGuard.canActivate] *)
Definition canActivate (handlerMeta classMeta : option (list Role.t))
  (user : option Identity) : bool :=
  match getAllAndOverride handlerMeta classMeta with
  | None => true
  | Some requiredRoles => existsb (userHasRole user) requiredRoles
  end.

(** A request as the guards see it. *)
Record Request : Type := mkRequest {
  bearer : option string;          (* token of the Authorization header *)
  req_user : option Identity       (* request.user *)
}.

(** The framework turns a guard that returns [false] into a
    [ForbiddenException]. *)
Definition RolesGuard (handlerMeta classMeta : option (list Role.t))
  (req : Request) : Outcome Request :=
  if canActivate handlerMeta classMeta (req_user req) then Ok req
  else Throw (ForbiddenException "Forbidden resource").

(** ** JSON exposed by [res.json] *)

(** A user document as [res.json] serialises it: every schema path of the
    document is written; a redacted record would carry no password. *)
Record UserJson : Type := mkUserJson {
  json_id : ObjectId;
  json_username : string;
  json_password : option string;
  json_roles : list string
}.

Definition toJSON (d : UserDocument) : UserJson :=
  mkUserJson (_id d) (username d) (Some (password d)) (roles d).

Record Response (B : Type) : Type := mkResponse {
  status : nat;
  json : B
}.
Arguments mkResponse {B} status json.
Arguments status {B} r.
Arguments json {B} r.

Definition NO_CONTENT : nat := 204.
Definition OK : nat := 200.

Section Services.

Context {bcrypt : Bcrypt} {config : ConfigService} {jwt : JwtService}.

(* ------------------------------------------------------------------ *)
(** ** AuthService, password part *)
(* ------------------------------------------------------------------ *)

(** [AuthService.hashPassword]; bcrypt rejects an [undefined] password. *)
Definition hashPassword (salt : string) (pw : option string) : M string :=
  match pw with
  | None => throw BcryptError
  | Some p =>
      emit (EvHash p) ;;;
      ret (bcrypt_hash p BCRYPT_SALT_ROUNDS salt)
  end.

(** [AuthService.comparePassword] *)
Definition comparePassword (pw storedPasswordHash : string) : M bool :=
  ret (bcrypt_compare pw storedPasswordHash).

(* ------------------------------------------------------------------ *)
(** ** UserService *)
(* ------------------------------------------------------------------ *)

Definition notFoundId (id : string) : Exception :=
  NotFoundException ("User with id " ++ id ++ " does not exist").

Definition notFoundName (name : string) : Exception :=
  NotFoundException ("User with name " ++ name ++ " does not exist").

Definition conflict (name : option string) : Exception :=
  ConflictException ("Username " ++ template name ++ " already exists").

Definition getAllUsers : M (list UserDocument) := Model_find.

Definition getUserById (id : string) : M UserDocument :=
  if negb (isValid id) then throw (notFoundId id)
  else
    user <- Model_findById id ;;
    match user with
    | None => throw (notFoundId id)
    | Some u => ret u
    end.

Definition getUserByUsername (name : string) : M UserDocument :=
  user <- Model_findOne (Some name) ;;
  match user with
  | None => throw (notFoundName name)
  | Some u => ret u
  end.

Definition createUser (fresh : Fresh) (user : PartialUser) : M unit :=
  let name := partial_username user in
  let pw := partial_password user in
  existingUser <- Model_findOne name ;;
  match existingUser with
  | Some _ => throw (conflict name)
  | None =>
      hashedPassword <- hashPassword (fresh_salt fresh) pw ;;
      newUser <- Model_create (fresh_oid fresh) name hashedPassword ;;
      Document_save newUser
  end.

Definition updateUserById (fresh : Fresh) (id : string) (user : User)
  : M unit :=
  found <- Model_findById id ;;
  match found with
  | None => throw (notFoundId id)
  | Some userDb =>
      userDb1 <-
        (if truthy (Some (user_username user))
            && negb (user_username user =? username userDb)
         then
           existingUser <- Model_findOne (Some (user_username user)) ;;
           match existingUser with
           | Some _ => throw (conflict (Some (user_username user)))
           | None => ret (setUsername userDb (user_username user))
           end
         else ret userDb) ;;
      userDb2 <-
        (if truthy (Some (user_password user))
         then
           h <- hashPassword (fresh_salt fresh) (Some (user_password user)) ;;
           ret (setPassword userDb1 h)
         else ret userDb1) ;;
      (* an array is truthy, also the empty one *)
      let userDb3 := setRoles userDb2 (user_roles user) in
      Document_save userDb3
  end.

Definition patchUserById (fresh : Fresh) (id : string)
  (partialUser : PartialUser) : M unit :=
  found <- Model_findById id ;;
  match found with
  | None => throw (notFoundId id)
  | Some userDb =>
      userDb1 <-
        (match partial_username partialUser with
         | Some newName =>
             if truthy (Some newName) && negb (newName =? username userDb)
             then
               existingUser <- Model_findOne (Some newName) ;;
               match existingUser with
               | Some _ => throw (conflict (Some newName))
               | None => ret (setUsername userDb newName)
               end
             else ret userDb
         | None => ret userDb
         end) ;;
      userDb2 <-
        (if truthy (partial_password partialUser)
         then
           h <- hashPassword (fresh_salt fresh)
                  (partial_password partialUser) ;;
           ret (setPassword userDb1 h)
         else ret userDb1) ;;
      let userDb3 :=
        match partial_roles partialUser with
        | Some rs => setRoles userDb2 rs
        | None => userDb2
        end in
      Document_save userDb3
  end.

Definition deleteUserById (id : string) : M unit :=
  userExists <- Model_exists id ;;
  if negb userExists then throw (notFoundId id)
  else
    Model_findByIdAndDelete id ;;;
    ret tt.

(* ------------------------------------------------------------------ *)
(** ** AuthService, credential part *)
(* ------------------------------------------------------------------ *)

(** [const { password, ...result } = user], where [user] is the hydrated
    document [findOne] returned (the services never call [lean] or
    [toObject]): [password] is read through the accessor, and [result]
    receives the own enumerable properties other than [password] -- all
    three of them, since [password] is not an own property.  A document
    that was loaded from the store has [$isNew] false. *)
Definition restWithoutPassword (user : UserDocument) : OwnProperties :=
  mkOwnProperties internalCache false user.

(** [AuthService.validateUser]: [None] is the [null] result. *)
Definition validateUser (name pw : string) : M (option OwnProperties) :=
  user <- getUserByUsername name ;;
  passwordMatch <- comparePassword pw (password user) ;;
  if passwordMatch then ret (Some (restWithoutPassword user))
  else ret None.

(** The body of a login request. *)
Record LoginBody : Type := mkLoginBody {
  body_username : string;
  body_password : string
}.

Record AccessToken : Type := mkAccessToken {
  access_token : string
}.

(** [AuthService.login] *)
Definition login (body : LoginBody) : M AccessToken :=
  userDB <- getUserByUsername (body_username body) ;;
  let payload :=
    mkJwtPayload (username userDB) (_id userDB) (roles userDB) in
  ret (mkAccessToken (jwt_sign payload)).

(** [LocalStrategy.validate] *)
Definition LocalStrategy_validate (name pw : string) : M OwnProperties :=
  user <- validateUser name pw ;;
  match user with
  | None => throw (UnauthorizedException "Invalid credentials")
  | Some u => ret u
  end.

(** [JwtAuthGuard]: the bearer token is verified, and the validated
    payload becomes [request.user]. *)
Definition JwtAuthGuard (req : Request) : Outcome Request :=
  match bearer req with
  | None => Throw (UnauthorizedException "Unauthorized")
  | Some token =>
      match jwt_verify token with
      | None => Throw (UnauthorizedException "Unauthorized")
      | Some payload =>
          Ok (mkRequest (bearer req) (Some (JwtStrategy_validate payload)))
      end
  end.

(** [@UseGuards(JwtAuthGuard, RolesGuard)] on a handler whose 'roles'
    metadata is [handlerMeta]; [AuthController] carries no class-level
    metadata.  The handler answers with [req.user]. *)
Definition guardedHandler (handlerMeta : option (list Role.t))
  (req : Request) : Outcome (Response (option Identity)) :=
  match JwtAuthGuard req with
  | Throw e => Throw e
  | Ok req1 =>
      match RolesGuard handlerMeta None req1 with
      | Throw e => Throw e
      | Ok req2 => Ok (mkResponse OK (req_user req2))
      end
  end.

(** [AuthController.onlyAdmin], [AuthController.onlyUser] *)
Definition onlyAdmin : Request -> Outcome (Response (option Identity)) :=
  guardedHandler (HasRoles [Role.Admin]).

Definition onlyUser : Request -> Outcome (Response (option Identity)) :=
  guardedHandler (HasRoles [Role.User]).

(** [AuthController.getProfile]: [@UseGuards(JwtAuthGuard)] only. *)
Definition getProfile (req : Request) : Outcome (Response (option Identity)) :=
  match JwtAuthGuard req with
  | Throw e => Throw e
  | Ok req1 => Ok (mkResponse OK (req_user req1))
  end.

(* ------------------------------------------------------------------ *)
(** ** UserController.getAllUsers *)
(* ------------------------------------------------------------------ *)

Definition UserController_getAllUsers : M (Response (list UserJson)) :=
  found <- getAllUsers ;;
  if (List.length found =? 0)%nat
  then ret (mkResponse NO_CONTENT (map toJSON found))
  else ret (mkResponse OK (map toJSON found)).

End Services.

(* ------------------------------------------------------------------ *)
(** ** Requests against the user directory, run one after the other *)
(* ------------------------------------------------------------------ *)

Inductive Operation : Type :=
  | OpCreate (fresh : Fresh) (candidate : PartialUser)
  | OpReplace (fresh : Fresh) (id : string) (user : User)
  | OpPatch (fresh : Fresh) (id : string) (partialUser : PartialUser)
  | OpDelete (id : string).

Section Directory.

Context {bcrypt : Bcrypt} {config : ConfigService}.

Definition perform (op : Operation) : M unit :=
  match op with
  | OpCreate fresh candidate => createUser fresh candidate
  | OpReplace fresh id user => updateUserById fresh id user
  | OpPatch fresh id partialUser => patchUserById fresh id partialUser
  | OpDelete id => deleteUserById id
  end.

(** The world after a sequence of requests; a request that throws leaves
    the world as it was when the exception was thrown, and the next
    request is served from there. *)
Fixpoint runAll (ops : list Operation) (w : World) : World :=
  match ops with
  | [] => w
  | op :: rest => runAll rest (snd (perform op w))
  end.

End Directory.

(** No two stored documents share a username. *)
Definition uniqueUsernames (us : list UserDocument) : Prop :=
  NoDup (map username us).

(** No two stored documents share an [_id]. *)
Definition uniqueIds (us : list UserDocument) : Prop :=
  NoDup (map _id us).

(** Every stored document satisfies the schema's required paths. *)
Definition schemaValid (us : list UserDocument) : Prop :=
  Forall (fun d => validateSync d = true) us.

(** What one request can do to the collection: nothing; insert, at the
    end, a valid document whose username and [_id] nobody has; write, over
    a stored document, a valid document with the same [_id] whose
    username is the old one or one nobody has; remove the first document
    with an [_id]. *)
Inductive Step (us : list UserDocument) : list UserDocument -> Prop :=
  | StepNone : Step us us
  | StepInsert (doc : UserDocument) :
      find (byUsername (username doc)) us = None ->
      find (byId (_id doc)) us = None ->
      validateSync doc = true ->
      Step us (us ++ [doc])
  | StepWrite (u doc : UserDocument) :
      find (byId (_id u)) us = Some u ->
      _id doc = _id u ->
      validateSync doc = true ->
      username doc = username u \/ find (byUsername (username doc)) us = None ->
      Step us (replaceFirst (byId (_id u)) doc us)
  | StepRemove (oid : ObjectId) :
      Step us (removeFirst (byId oid) us).

(** A response in which no record carries a password. *)
Definition redacted (r : Response (list UserJson)) : Prop :=
  Forall (fun j => json_password j = None) (json r).

(* ------------------------------------------------------------------ *)
(** ** Test doubles, in the manner of the repository's jest mocks *)
(* ------------------------------------------------------------------ *)

Definition mockBcrypt : Bcrypt :=
  {| bcrypt_hash := fun data _ salt => ("$2b$" ++ salt ++ "$" ++ data)%string;
     bcrypt_compare := fun data encrypted => (encrypted =? "$2b$salt$" ++ data)%string |}.

Definition mockConfig : ConfigService := {| BCRYPT_SALT_ROUNDS := 10 |}.

Definition testuserId : ObjectId := 1%N.
Definition adminId : ObjectId := 2%N.

Definition testuser : UserDocument :=
  mkUserDocument testuserId "testuser" "$2b$salt$password123" ["user"].

Definition adminUser : UserDocument :=
  mkUserDocument adminId "adminUser" "$2b$salt$adminPass" ["admin"].

Definition testuserPayload : JwtPayload :=
  mkJwtPayload "testuser" testuserId ["user"].

Definition adminPayload : JwtPayload :=
  mkJwtPayload "adminUser" adminId ["admin"].

(** Tokens are the strings "jwt-user" and "jwt-admin". *)
Definition mockJwt : JwtService :=
  {| jwt_sign := fun payload =>
       if payload_username payload =? "adminUser" then "jwt-admin"
       else "jwt-user";
     jwt_verify := fun token =>
       if token =? "jwt-user" then Some testuserPayload
       else if token =? "jwt-admin" then Some adminPayload
       else None |}.

Definition mockWorld : World := mkWorld [testuser; adminUser] [].

Definition mockFresh : Fresh := mkFresh 3%N "salt".

(** ["60d5f9f5319a5c1d4c8e7b60"], the well-formed id the tests use for a
    document that does not exist, denotes this ObjectId. *)
Definition absentId : string := "60d5f9f5319a5c1d4c8e7b60".

(** An id string for [testuserId]. *)
Definition testuserIdString : string := "000000000000000000000001".

(** A request that bears the token of [testuser], whose roles are
    ["user"]. *)
Definition userRequest : Request := mkRequest (Some "jwt-user"%string) None.

(** A create, a patch that renames, a replace onto a taken name, a
    delete and a second create of the first name. *)
Definition sampleOperations : list Operation :=
  [ OpCreate mockFresh
      (mkPartialUser (Some "newuser"%string) (Some "password123"%string) None);
    OpPatch mockFresh testuserIdString
      (mkPartialUser (Some "renamed"%string) None None);
    OpReplace mockFresh "000000000000000000000002"
      (mkUser "newuser" "updatedPassword1" ["user"%string; "admin"%string]);
    OpDelete "000000000000000000000003";
    OpCreate (mkFresh 4%N "salt")
      (mkPartialUser (Some "newuser"%string) (Some "pass2"%string) None) ].

(** A candidate that asks for the admin role, and the world [createUser]
    leaves when it accepts it in [mockWorld] under [mockFresh]. *)
Definition adminCandidate : PartialUser :=
  mkPartialUser (Some "newuser"%string) (Some "password123"%string)
                (Some ["admin"%string]).

Definition createdDocument : UserDocument :=
  mkUserDocument 3%N "newuser" "$2b$salt$password123" ["user"%string].

Definition worldAfterCreate : World :=
  mkWorld [testuser; adminUser; createdDocument]
          [EvHash "password123"; EvCreate createdDocument; EvSave createdDocument].

(* ------------------------------------------------------------------ *)
(** ** The hashes the directory writes *)
(* ------------------------------------------------------------------ *)

Section Hashes.

Context {bcrypt : Bcrypt} {config : ConfigService}.

(** A string that [hashPassword] can return. *)
Definition isHash (h : string) : Prop :=
  exists plaintext salt, h = bcrypt_hash plaintext BCRYPT_SALT_ROUNDS salt.

(** Every password of [us] is a password of [us0] or a hash. *)
Definition passwordsFrom (us0 us : list UserDocument) : Prop :=
  Forall (fun d => In (password d) (map password us0) \/ isHash (password d)) us.

End Hashes.

(** The postcondition of a computation that, when it throws, has left the
    collection of [w] as it was. *)
Definition keepsCollectionOnThrow {A : Type} (w : World)
  : Outcome A -> World -> Prop :=
  fun o w' => match o with
              | Throw _ => users w' = users w
              | Ok _ => True
              end.

(** A request that bears the token of [adminUser]. *)
Definition adminRequest : Request := mkRequest (Some "jwt-admin"%string) None.

(** An id string for [adminId]. *)
Definition adminIdString : string := "000000000000000000000002".

(* ================================================================== *)
(** * Properties *)
(* ================================================================== *)

(** ** Lists of documents *)

Lemma byUsername_true (n : string) (d : UserDocument) :
  byUsername n d = true <-> username d = n.
Proof. unfold byUsername. apply String.eqb_eq. Qed.

Lemma byId_true (oid : ObjectId) (d : UserDocument) :
  byId oid d = true <-> _id d = oid.
Proof. unfold byId. apply N.eqb_eq. Qed.

Lemma find_byUsername_Some (n : string) (us : list UserDocument) (u : UserDocument) :
  find (byUsername n) us = Some u -> In u us /\ username u = n.
Proof.
  intros H. apply find_some in H. destruct H as [Hin Hp].
  split; [exact Hin | now apply byUsername_true].
Qed.

Lemma find_byUsername_None (n : string) (us : list UserDocument) :
  find (byUsername n) us = None <-> ~ In n (map username us).
Proof.
  induction us as [|d us IH]; simpl.
  - split; [intros _ [] | reflexivity].
  - destruct (byUsername n d) eqn:E.
    + apply byUsername_true in E. split; [discriminate | intros H; exfalso; apply H; now left].
    + rewrite IH. split.
      * intros H [Hd | Hin]; [|now apply H].
        apply byUsername_true in Hd. congruence.
      * intros H Hin. apply H. now right.
Qed.

Lemma find_byUsername_unique (us : list UserDocument) (u : UserDocument) :
  uniqueUsernames us -> In u us -> find (byUsername (username u)) us = Some u.
Proof.
  unfold uniqueUsernames.
  induction us as [|d us IH]; simpl; intros Hnd Hin; [contradiction|].
  inversion Hnd as [|? ? Hnotin Hnd']; subst.
  destruct Hin as [-> | Hin].
  - now rewrite (proj2 (byUsername_true (username u) u) eq_refl).
  - destruct (byUsername (username u) d) eqn:E.
    + apply byUsername_true in E. exfalso. apply Hnotin. rewrite E.
      now apply in_map.
    + now apply IH.
Qed.

Lemma find_byId_Some (oid : ObjectId) (us : list UserDocument) (u : UserDocument) :
  find (byId oid) us = Some u -> In u us /\ _id u = oid.
Proof.
  intros H. apply find_some in H. destruct H as [Hin Hp].
  split; [exact Hin | now apply byId_true].
Qed.

Lemma existsb_find_byId (oid : ObjectId) (us : list UserDocument) :
  existsb (byId oid) us = match find (byId oid) us with Some _ => true | None => false end.
Proof.
  induction us as [|d us IH]; simpl; [reflexivity|].
  destruct (byId oid d); simpl; [reflexivity | exact IH].
Qed.

Lemma replaceFirst_last (p : UserDocument -> bool) (doc : UserDocument)
  (us : list UserDocument) :
  find p us = None -> replaceFirst p doc (us ++ [doc]) = us ++ [doc].
Proof.
  induction us as [|d us IH]; simpl.
  - intros _. now destruct (p doc).
  - destruct (p d); [discriminate|]. intros H. now rewrite IH.
Qed.

Lemma find_replaceFirst (p : UserDocument -> bool) (doc u : UserDocument)
  (us : list UserDocument) :
  find p us = Some u -> p doc = true -> find p (replaceFirst p doc us) = Some doc.
Proof.
  induction us as [|d us IH]; simpl; [discriminate|].
  destruct (p d) eqn:E; intros H Hdoc; simpl.
  - now rewrite Hdoc.
  - rewrite E. now apply IH.
Qed.

Lemma find_split (p : UserDocument -> bool) (u : UserDocument)
  (us : list UserDocument) :
  find p us = Some u ->
  exists l1 l2, us = l1 ++ u :: l2 /\
    (forall doc, replaceFirst p doc us = l1 ++ doc :: l2) /\
    removeFirst p us = l1 ++ l2.
Proof.
  induction us as [|d us IH]; simpl; [discriminate|].
  destruct (p d) eqn:E.
  - intros [= ->]. exists [], us. auto.
  - intros H. destruct (IH H) as (l1 & l2 & -> & Hrep & Hrem).
    exists (d :: l1), l2. simpl. repeat split.
    + intros doc. now rewrite Hrep.
    + now rewrite Hrem.
Qed.

Lemma removeFirst_absent (p : UserDocument -> bool) (us : list UserDocument) :
  find p us = None -> removeFirst p us = us.
Proof.
  induction us as [|d us IH]; simpl; [reflexivity|].
  destruct (p d); [discriminate|]. intros H. now rewrite IH.
Qed.

(** Writing a document over the first match keeps usernames distinct when
    the written username is the one it replaces or is used by nobody. *)
Lemma replaceFirst_unique (p : UserDocument -> bool) (doc u : UserDocument)
  (us : list UserDocument) :
  uniqueUsernames us ->
  find p us = Some u ->
  username doc = username u \/ ~ In (username doc) (map username us) ->
  uniqueUsernames (replaceFirst p doc us).
Proof.
  unfold uniqueUsernames. intros Hnd Hfind Hname.
  destruct (find_split p u us Hfind) as (l1 & l2 & -> & Hrep & _).
  rewrite Hrep. rewrite map_app in *. simpl in *.
  destruct Hname as [-> | Hfresh]; [exact Hnd|].
  apply NoDup_remove in Hnd. destruct Hnd as [Hnd Hnotin].
  apply (NoDup_Add (Add_app (username doc) (map username l1) (map username l2))).
  split; [exact Hnd|].
  intros Hin. apply Hfresh. apply in_app_or in Hin. apply in_or_app.
  destruct Hin as [Hin | Hin]; [now left | right; now right].
Qed.

Lemma removeFirst_unique (p : UserDocument -> bool) (us : list UserDocument) :
  uniqueUsernames us -> uniqueUsernames (removeFirst p us).
Proof.
  unfold uniqueUsernames. intros Hnd.
  destruct (find p us) as [u|] eqn:Hfind.
  - destruct (find_split p u us Hfind) as (l1 & l2 & -> & _ & Hrem).
    rewrite Hrem. rewrite map_app in *. simpl in Hnd.
    now apply NoDup_remove in Hnd.
  - now rewrite removeFirst_absent.
Qed.

Lemma append_unique (d : UserDocument) (us : list UserDocument) :
  uniqueUsernames us ->
  find (byUsername (username d)) us = None ->
  uniqueUsernames (us ++ [d]).
Proof.
  unfold uniqueUsernames. intros Hnd Hfind.
  apply find_byUsername_None in Hfind.
  rewrite map_app. simpl.
  apply (NoDup_Add (Add_app (username d) (map username us) [])).
  rewrite app_nil_r. split; assumption.
Qed.

(** ** Running the model and the services *)

Ltac reduce :=
  cbv beta iota zeta in *;
  cbn [fst snd negb andb users trace _id username password roles
       partial_username partial_password partial_roles
       user_username user_password user_roles] in *.

Ltac run_model :=
  unfold Model_find, Model_findOne, Model_findById, Model_exists,
    Model_findByIdAndDelete, Model_create, Document_save,
    bind, ret, throw, emit, getUsers, setUsers in *;
  reduce.

Lemma world_eta (w : World) : mkWorld (users w) (trace w) = w.
Proof. now destruct w. Qed.

(** ** Rules of the postcondition calculus *)

Lemma wp_ret {A : Type} (a : A) (Q : Outcome A -> World -> Prop) (w : World) :
  Q (Ok a) w -> wp (ret a) Q w.
Proof. exact (fun H => H). Qed.

Lemma wp_throw {A : Type} (e : Exception) (Q : Outcome A -> World -> Prop)
  (w : World) :
  Q (Throw e) w -> wp (throw e) Q w.
Proof. exact (fun H => H). Qed.

Lemma wp_bind {A B : Type} (c : M A) (k : A -> M B)
  (Q : Outcome B -> World -> Prop) (w : World) :
  wp c (fun o w' => match o with
                    | Ok a => wp (k a) Q w'
                    | Throw e => Q (Throw e) w'
                    end) w ->
  wp (bind c k) Q w.
Proof.
  unfold wp, bind. destruct (c w) as [[a|e] w']; simpl; auto.
Qed.

Lemma wp_emit (ev : Event) (Q : Outcome unit -> World -> Prop) (w : World) :
  Q (Ok tt) (mkWorld (users w) (trace w ++ [ev])) -> wp (emit ev) Q w.
Proof. exact (fun H => H). Qed.

Lemma wp_findOne (n : string) (Q : Outcome (option UserDocument) -> World -> Prop)
  (w : World) :
  Q (Ok (find (byUsername n) (users w))) w -> wp (Model_findOne (Some n)) Q w.
Proof. exact (fun H => H). Qed.

Lemma wp_findOne_undefined (Q : Outcome (option UserDocument) -> World -> Prop)
  (w : World) :
  Q (Ok None) w -> wp (Model_findOne None) Q w.
Proof. exact (fun H => H). Qed.

Lemma wp_findById (id : string) (Q : Outcome (option UserDocument) -> World -> Prop)
  (w : World) :
  match castObjectId id with
  | Some oid => Q (Ok (find (byId oid) (users w))) w
  | None => Q (Throw (CastError id)) w
  end ->
  wp (Model_findById id) Q w.
Proof. unfold wp, Model_findById. now destruct (castObjectId id). Qed.

Lemma wp_exists (id : string) (Q : Outcome bool -> World -> Prop) (w : World) :
  match castObjectId id with
  | Some oid => Q (Ok (existsb (byId oid) (users w))) w
  | None => Q (Throw (CastError id)) w
  end ->
  wp (Model_exists id) Q w.
Proof. unfold wp, Model_exists. now destruct (castObjectId id). Qed.

Lemma wp_findByIdAndDelete (id : string)
  (Q : Outcome (option UserDocument) -> World -> Prop) (w : World) :
  match castObjectId id with
  | Some oid =>
      match find (byId oid) (users w) with
      | Some d => Q (Ok (Some d))
                    (mkWorld (removeFirst (byId oid) (users w))
                             (trace w ++ [EvDelete oid]))
      | None => Q (Ok None) w
      end
  | None => Q (Throw (CastError id)) w
  end ->
  wp (Model_findByIdAndDelete id) Q w.
Proof.
  unfold wp, Model_findByIdAndDelete. destruct (castObjectId id); [|auto].
  run_model. now destruct (find (byId o) (users w)).
Qed.

Lemma wp_create (oid : ObjectId) (name : option string) (pw : string)
  (Q : Outcome UserDocument -> World -> Prop) (w : World) :
  (if required name && required (Some pw) then
     let doc := mkUserDocument oid (match name with Some n => n | None => EmptyString end)
                  pw default_roles in
     if existsb (byId oid) (users w) then Q (Throw DuplicateKeyError) w
     else Q (Ok doc) (mkWorld (users w ++ [doc]) (trace w ++ [EvCreate doc]))
   else Q (Throw ValidationError) w) ->
  wp (Model_create oid name pw) Q w.
Proof.
  unfold wp, Model_create.
  destruct (required name && required (Some pw)); [|auto].
  run_model. now destruct (existsb (byId oid) (users w)).
Qed.

Lemma wp_save (doc : UserDocument) (Q : Outcome unit -> World -> Prop) (w : World) :
  (if validateSync doc
   then Q (Ok tt) (mkWorld (replaceFirst (byId (_id doc)) doc (users w))
                           (trace w ++ [EvSave doc]))
   else Q (Throw ValidationError) w) ->
  wp (Document_save doc) Q w.
Proof. unfold wp, Document_save. now destruct (validateSync doc). Qed.

Section DirectoryFacts.

Context {bcrypt : Bcrypt} {config : ConfigService}.

(** [getUserByUsername] reads the store and never writes it. *)
Lemma getUserByUsername_run (n : string) (w : World) :
  getUserByUsername n w =
  (match find (byUsername n) (users w) with
   | Some u => Ok u
   | None => Throw (notFoundName n)
   end, w).
Proof.
  unfold getUserByUsername. run_model. now destruct (find (byUsername n) (users w)).
Qed.

(** What an accepted [createUser] did. *)
Lemma createUser_Ok (fresh : Fresh) (candidate : PartialUser) (w w' : World) :
  createUser fresh candidate w = (Ok tt, w') ->
  exists name pw,
    partial_username candidate = Some name /\
    partial_password candidate = Some pw /\
    find (byUsername name) (users w) = None /\
    find (byId (fresh_oid fresh)) (users w) = None /\
    let doc := mkUserDocument (fresh_oid fresh) name
                 (bcrypt_hash pw BCRYPT_SALT_ROUNDS (fresh_salt fresh))
                 default_roles in
    w' = mkWorld (users w ++ [doc])
                 (trace w ++ [EvHash pw; EvCreate doc; EvSave doc]).
Proof.
  unfold createUser, hashPassword. run_model.
  destruct candidate as [[name|] [pw|] rs]; reduce.
  - destruct (find (byUsername name) (users w)) eqn:Hname; reduce; [discriminate|].
    cbn [required].
    destruct (negb (name =? EmptyString)%string
              && negb (bcrypt_hash pw BCRYPT_SALT_ROUNDS (fresh_salt fresh) =? EmptyString)%string)
      eqn:Hreq; reduce; [|discriminate].
    rewrite existsb_find_byId.
    destruct (find (byId (fresh_oid fresh)) (users w)) eqn:Hid; reduce; [discriminate|].
    unfold validateSync. cbn [username password required]. rewrite Hreq. reduce.
    rewrite replaceFirst_last by exact Hid.
    intros [= <-]. exists name, pw. repeat split; auto.
    f_equal. rewrite <- !app_assoc. reflexivity.
  - destruct (find (byUsername name) (users w)); reduce; discriminate.
  - cbn [required andb]. reduce. discriminate.
  - discriminate.
Qed.

(** A full update is the partial update in which every field is given. *)
Lemma updateUserById_as_patch (fresh : Fresh) (id : string) (user : User) :
  updateUserById fresh id user =
  patchUserById fresh id
    (mkPartialUser (Some (user_username user)) (Some (user_password user))
                   (Some (user_roles user))).
Proof. reflexivity. Qed.

Lemma wp_hashPassword (salt : string) (pw : option string)
  (Q : Outcome string -> World -> Prop) (w : World) :
  match pw with
  | Some p => Q (Ok (bcrypt_hash p BCRYPT_SALT_ROUNDS salt))
                (mkWorld (users w) (trace w ++ [EvHash p]))
  | None => Q (Throw BcryptError) w
  end ->
  wp (hashPassword salt pw) Q w.
Proof. unfold wp, hashPassword. now destruct pw. Qed.

Ltac wp_step :=
  lazymatch goal with
  | |- wp (bind _ _) _ _ => apply wp_bind
  | |- wp (ret _) _ _ => apply wp_ret
  | |- wp (throw _) _ _ => apply wp_throw
  | |- wp (emit _) _ _ => apply wp_emit
  | |- wp (Model_findOne (Some _)) _ _ => apply wp_findOne
  | |- wp (Model_findOne None) _ _ => apply wp_findOne_undefined
  | |- wp (Model_findById _) _ _ => apply wp_findById
  | |- wp (Model_exists _) _ _ => apply wp_exists
  | |- wp (Model_findByIdAndDelete _) _ _ => apply wp_findByIdAndDelete
  | |- wp (Model_create _ _ _) _ _ => apply wp_create
  | |- wp (Document_save _) _ _ => apply wp_save
  | |- wp (hashPassword _ _) _ _ => apply wp_hashPassword
  end;
  reduce.

(** *** Each request is a step of the collection *)

Lemma createUser_step (fresh : Fresh) (candidate : PartialUser) (w : World) :
  wp (createUser fresh candidate) (fun _ w' => Step (users w) (users w')) w.
Proof.
  unfold createUser.
  destruct candidate as [name pw rs]; reduce.
  assert (Hrest : forall tail : option string,
    match tail with Some n => find (byUsername n) (users w) = None | None => True end ->
    wp (hashedPassword <- hashPassword (fresh_salt fresh) pw ;;
        newUser <- Model_create (fresh_oid fresh) tail hashedPassword ;;
        Document_save newUser)
       (fun _ w' => Step (users w) (users w')) w).
  { intros tail Htail. do 2 wp_step. destruct pw as [p|]; [|constructor].
    do 2 wp_step.
    destruct (required tail && required (Some (bcrypt_hash p BCRYPT_SALT_ROUNDS (fresh_salt fresh))))
      eqn:Hreq; reduce; [|constructor].
    rewrite existsb_find_byId.
    destruct (find (byId (fresh_oid fresh)) (users w)) eqn:Hid; reduce; [constructor|].
    wp_step.
    destruct tail as [n|]; [|discriminate].
    unfold validateSync. reduce. rewrite Hreq.
    rewrite replaceFirst_last by exact Hid.
    now apply StepInsert. }
  destruct name as [n|].
  - do 2 wp_step.
    destruct (find (byUsername n) (users w)) eqn:Hname; reduce.
    + wp_step. constructor.
    + apply Hrest. exact Hname.
  - do 2 wp_step. apply Hrest. exact I.
Qed.

Lemma patchUserById_step (fresh : Fresh) (id : string)
  (partialUser : PartialUser) (w : World) :
  wp (patchUserById fresh id partialUser)
     (fun _ w' => Step (users w) (users w')) w.
Proof.
  unfold patchUserById.
  do 2 wp_step.
  destruct (castObjectId id) as [oid|]; [|constructor].
  destruct (find (byId oid) (users w)) as [u|] eqn:Hfind; reduce;
    [|wp_step; constructor].
  destruct (find_byId_Some _ _ _ Hfind) as [_ Hoid]. subst oid.
  destruct partialUser as [name pw rs]; reduce.
  (* what remains once the in-memory document has its username *)
  assert (Hrest : forall u1 : UserDocument,
    _id u1 = _id u ->
    username u1 = username u \/ find (byUsername (username u1)) (users w) = None ->
    wp (userDb2 <-
          (if truthy pw
           then h <- hashPassword (fresh_salt fresh) pw ;; ret (setPassword u1 h)
           else ret u1) ;;
        Document_save
          match rs with
          | Some rs0 => setRoles userDb2 rs0
          | None => userDb2
          end)
       (fun _ w' => Step (users w) (users w')) w).
  { intros u1 Hid1 Hname1.
    assert (Hsave : forall (doc : UserDocument) (tr : list Event),
      _id doc = _id u -> username doc = username u1 ->
      wp (Document_save doc) (fun _ w' => Step (users w) (users w'))
         (mkWorld (users w) tr)).
    { intros doc tr Hd Hn. wp_step.
      destruct (validateSync doc) eqn:Hv; reduce; [|constructor].
      rewrite Hd. apply StepWrite; auto.
      rewrite Hn. exact Hname1. }
    wp_step.
    destruct (truthy pw) eqn:Hpw.
    - do 2 wp_step. destruct pw as [p|]; [|discriminate].
      wp_step. destruct rs; apply Hsave; auto.
    - wp_step. rewrite <- (world_eta w).
      destruct rs; apply Hsave; auto. }
  wp_step.
  destruct name as [newName|].
  - destruct (truthy (Some newName) && negb (newName =? username u)%string)
      eqn:Hchange.
    + do 2 wp_step.
      destruct (find (byUsername newName) (users w)) eqn:Hname; reduce.
      * wp_step. constructor.
      * wp_step. apply Hrest; auto.
    + wp_step. apply Hrest; auto.
  - wp_step. apply Hrest; auto.
Qed.

Lemma deleteUserById_step (id : string) (w : World) :
  wp (deleteUserById id) (fun _ w' => Step (users w) (users w')) w.
Proof.
  unfold deleteUserById. do 2 wp_step.
  destruct (castObjectId id) as [oid|] eqn:Hcast; [|constructor].
  destruct (existsb (byId oid) (users w)); reduce; [|wp_step; constructor].
  do 2 wp_step. rewrite Hcast.
  destruct (find (byId oid) (users w)); wp_step; constructor.
Qed.

Lemma perform_step (op : Operation) (w : World) :
  Step (users w) (users (snd (perform op w))).
Proof.
  destruct op; cbn [perform].
  - exact (createUser_step fresh candidate w).
  - rewrite updateUserById_as_patch. exact (patchUserById_step fresh id _ w).
  - exact (patchUserById_step fresh id partialUser w).
  - exact (deleteUserById_step id w).
Qed.

(** *** What a step preserves *)

Lemma Step_uniqueUsernames (us us' : list UserDocument) :
  Step us us' -> uniqueUsernames us -> uniqueUsernames us'.
Proof.
  intros Hstep Hu. destruct Hstep as [|doc Hname _ _|u doc Hfind _ _ Hname|oid].
  - exact Hu.
  - now apply append_unique.
  - apply (replaceFirst_unique _ _ u); auto.
    destruct Hname as [Hsame | Hfree]; [now left | right].
    now apply find_byUsername_None.
  - now apply removeFirst_unique.
Qed.

Lemma find_byId_None (oid : ObjectId) (us : list UserDocument) :
  find (byId oid) us = None -> ~ In oid (map _id us).
Proof.
  induction us as [|d us IH]; simpl; [intros _ []|].
  destruct (byId oid d) eqn:E; [discriminate|].
  intros Hnone [Hd | Hin]; [|now apply IH].
  apply byId_true in Hd. congruence.
Qed.

Lemma Step_uniqueIds (us us' : list UserDocument) :
  Step us us' -> uniqueIds us -> uniqueIds us'.
Proof.
  unfold uniqueIds.
  intros Hstep Hu. destruct Hstep as [|doc _ Hid _|u doc Hfind Hid _ _|oid].
  - exact Hu.
  - rewrite map_app. simpl.
    apply (NoDup_Add (Add_app (_id doc) (map _id us) [])).
    rewrite app_nil_r. split; [exact Hu | now apply find_byId_None].
  - destruct (find_split _ _ _ Hfind) as (l1 & l2 & Hus & Hrep & _).
    rewrite Hrep. rewrite Hus in Hu. rewrite map_app in *. simpl in *.
    now rewrite Hid.
  - destruct (find (byId oid) us) as [u|] eqn:Hfind.
    + destruct (find_split _ _ _ Hfind) as (l1 & l2 & Hus & _ & Hrem).
      rewrite Hrem. rewrite Hus in Hu. rewrite map_app in *. simpl in Hu.
      now apply NoDup_remove in Hu.
    + now rewrite removeFirst_absent.
Qed.

Lemma Step_schemaValid (us us' : list UserDocument) :
  Step us us' -> schemaValid us -> schemaValid us'.
Proof.
  unfold schemaValid.
  intros Hstep Hv. destruct Hstep as [|doc _ _ Hdoc|u doc Hfind _ Hdoc _|oid].
  - exact Hv.
  - apply Forall_app. split; [exact Hv | now constructor].
  - destruct (find_split _ _ _ Hfind) as (l1 & l2 & Hus & Hrep & _).
    rewrite Hrep. rewrite Hus in Hv. apply Forall_app in Hv.
    destruct Hv as [H1 H2]. inversion H2; subst.
    apply Forall_app. split; [exact H1 | now constructor].
  - destruct (find (byId oid) us) as [u|] eqn:Hfind.
    + destruct (find_split _ _ _ Hfind) as (l1 & l2 & Hus & _ & Hrem).
      rewrite Hrem. rewrite Hus in Hv. apply Forall_app in Hv.
      destruct Hv as [H1 H2]. inversion H2; subst.
      apply Forall_app. now split.
    + now rewrite removeFirst_absent.
Qed.

(** The [_id]s stay distinct, and the documents stay valid for the
    schema, along any sequence of requests. *)
Lemma runAll_store_invariants (ops : list Operation) (w : World) :
  uniqueIds (users w) /\ schemaValid (users w) ->
  uniqueIds (users (runAll ops w)) /\ schemaValid (users (runAll ops w)).
Proof.
  revert w. induction ops as [|op ops IH]; intros w [Hi Hv]; cbn [runAll].
  - now split.
  - apply IH. split.
    + exact (Step_uniqueIds _ _ (perform_step op w) Hi).
    + exact (Step_schemaValid _ _ (perform_step op w) Hv).
Qed.

(** C5 -- Username uniqueness invariant.  Starting from any store in which
    no two documents share a username, every sequence of create, replace
    (full update), patch (partial update) and delete requests, served one
    after the other, ends in a store in which no two documents share a
    username; a request that throws counts as served. *)
Theorem username_uniqueness_preserved (ops : list Operation) (w : World) :
  uniqueUsernames (users w) -> uniqueUsernames (users (runAll ops w)).
Proof.
  revert w. induction ops as [|op ops IH]; intros w Hu; cbn [runAll].
  - exact Hu.
  - apply IH. exact (Step_uniqueUsernames _ _ (perform_step op w) Hu).
Qed.

(** C4 -- create on a taken username.  Whatever the other fields of the
    candidate are, a candidate whose username is the username of a stored
    document makes [createUser] throw the Conflict exception and leaves
    the world as it was: the collection is unchanged and the log gains no
    event, so nothing was inserted and no password was hashed. *)
Theorem createUser_conflict (fresh : Fresh) (candidate : PartialUser)
  (w : World) (u : UserDocument) :
  In u (users w) ->
  partial_username candidate = Some (username u) ->
  createUser fresh candidate w =
  (Throw (ConflictException ("Username " ++ username u ++ " already exists")), w).
Proof.
  intros Hin Hname. unfold createUser. rewrite Hname. run_model.
  destruct (find (byUsername (username u)) (users w)) eqn:Hfind; reduce.
  - reflexivity.
  - exfalso. apply find_byUsername_None in Hfind. apply Hfind.
    now apply in_map.
Qed.

Lemma find_app_last (p : UserDocument -> bool) (doc : UserDocument)
  (us : list UserDocument) :
  find p us = None -> p doc = true -> find p (us ++ [doc]) = Some doc.
Proof.
  induction us as [|d us IH]; simpl; intros Hnone Hdoc.
  - now rewrite Hdoc.
  - destruct (p d); [discriminate|]. now apply IH.
Qed.

(** C9 -- Password never stored in plaintext.  When [createUser] accepts a
    candidate, [getUserByUsername] run right after it returns a document
    whose stored password is the bcrypt hash of the submitted plaintext
    (under the configured rounds and the salt drawn for it); so whenever
    that hash differs from the plaintext, the stored password is not the
    plaintext. *)
Theorem created_password_is_hashed (fresh : Fresh) (candidate : PartialUser)
  (w w' : World) :
  createUser fresh candidate w = (Ok tt, w') ->
  exists name plaintext doc,
    partial_username candidate = Some name /\
    partial_password candidate = Some plaintext /\
    getUserByUsername name w' = (Ok doc, w') /\
    password doc = bcrypt_hash plaintext BCRYPT_SALT_ROUNDS (fresh_salt fresh) /\
    (bcrypt_hash plaintext BCRYPT_SALT_ROUNDS (fresh_salt fresh) <> plaintext ->
     password doc <> plaintext).
Proof.
  intros Hrun.
  destruct (createUser_Ok _ _ _ _ Hrun)
    as (name & pw & Hname & Hpw & Hfree & _ & Hw').
  cbv zeta in Hw'.
  exists name, pw. eexists. repeat split; try eassumption.
  - rewrite getUserByUsername_run. subst w'. reduce.
    rewrite (find_app_last _ _ _ Hfree); [reflexivity|].
    now apply byUsername_true.
  - reflexivity.
  - intros Hne. exact Hne.
Qed.

(** C10 -- create discards the candidate's roles.  When [createUser]
    accepts a candidate, whatever role list the candidate carries, the one
    document it inserts has the roles of the schema default, ["user"],
    and that is the document [getUserByUsername] then returns. *)
Theorem created_roles_are_default (fresh : Fresh) (candidate : PartialUser)
  (w w' : World) :
  createUser fresh candidate w = (Ok tt, w') ->
  exists name doc,
    partial_username candidate = Some name /\
    users w' = users w ++ [doc] /\
    username doc = name /\
    roles doc = ["user"%string] /\
    getUserByUsername name w' = (Ok doc, w').
Proof.
  intros Hrun.
  destruct (createUser_Ok _ _ _ _ Hrun)
    as (name & pw & Hname & Hpw & Hfree & _ & Hw').
  cbv zeta in Hw'.
  exists name. eexists. subst w'. reduce. repeat split; try eassumption.
  rewrite getUserByUsername_run. reduce.
  rewrite (find_app_last _ _ _ Hfree); [reflexivity|].
  now apply byUsername_true.
Qed.

Lemma wp_equation {A : Type} (c : M A) (o : Outcome A) (w w' : World) :
  wp c (fun o1 w1 => o1 = o /\ w1 = w') w -> c w = (o, w').
Proof.
  unfold wp. destruct (c w) as [o1 w1]. simpl. now intros [-> ->].
Qed.

Lemma truthy_username_unchanged (u : UserDocument) :
  truthy (Some (username u)) && negb (username u =? username u)%string = false.
Proof. rewrite String.eqb_refl. apply andb_false_r. Qed.

(** C7 -- patch frame property.  Let [u] be the stored document an id
    denotes, valid for the schema.  A patch that carries only a role list
    succeeds and overwrites [u] by the document that differs from it in
    its roles alone: same [_id], same username, same stored password.  A
    patch that carries only the username [u] already has succeeds, writes
    [u] back unchanged, and the save is logged all the same.  In both
    cases nothing else is touched and the save is the one event logged. *)
Theorem patch_frame (fresh : Fresh) (id : string) (u : UserDocument) (w : World) :
  castObjectId id = Some (_id u) ->
  find (byId (_id u)) (users w) = Some u ->
  validateSync u = true ->
  (forall rs : list string,
     let u' := mkUserDocument (_id u) (username u) (password u) rs in
     let w' := mkWorld (replaceFirst (byId (_id u)) u' (users w))
                       (trace w ++ [EvSave u']) in
     patchUserById fresh id (mkPartialUser None None (Some rs)) w = (Ok tt, w') /\
     find (byId (_id u)) (users w') = Some u') /\
  (let w' := mkWorld (replaceFirst (byId (_id u)) u (users w))
                     (trace w ++ [EvSave u]) in
   patchUserById fresh id (mkPartialUser (Some (username u)) None None) w
     = (Ok tt, w') /\
   find (byId (_id u)) (users w') = Some u).
Proof.
  intros Hcast Hfind Hvalid. split.
  - intros rs u' w'. split.
    + apply wp_equation. unfold patchUserById.
      do 2 wp_step. rewrite Hcast, Hfind. reduce.
      do 2 wp_step. cbn [truthy]. do 3 wp_step.
      change (validateSync (setRoles u rs)) with (validateSync u).
      rewrite Hvalid. split; reflexivity.
    + subst w'. reduce. apply (find_replaceFirst _ _ u); [exact Hfind|].
      now apply byId_true.
  - intros w'. split.
    + apply wp_equation. unfold patchUserById.
      do 2 wp_step. rewrite Hcast, Hfind. reduce.
      wp_step. rewrite truthy_username_unchanged.
      do 2 wp_step. cbn [truthy]. do 2 wp_step.
      rewrite Hvalid. split; reflexivity.
    + subst w'. reduce. apply (find_replaceFirst _ _ u); [exact Hfind|].
      now apply byId_true.
Qed.

(** *** delete *)

(** A well-formed id that denotes no stored document: NotFound, and the
    world is as it was. *)
Lemma deleteUserById_absent (id : string) (oid : ObjectId) (w : World) :
  castObjectId id = Some oid ->
  find (byId oid) (users w) = None ->
  deleteUserById id w = (Throw (notFoundId id), w).
Proof.
  intros Hcast Hfind. apply wp_equation. unfold deleteUserById.
  do 2 wp_step. rewrite Hcast, existsb_find_byId, Hfind. reduce.
  wp_step. split; reflexivity.
Qed.

Lemma find_removeFirst_NoDup (oid : ObjectId) (us : list UserDocument) :
  NoDup (map _id us) -> find (byId oid) (removeFirst (byId oid) us) = None.
Proof.
  induction us as [|d us IH]; simpl; intros Hnd; [reflexivity|].
  inversion Hnd as [|? ? Hnotin Hnd']; subst.
  destruct (byId oid d) eqn:E; simpl.
  - apply byId_true in E. subst oid.
    destruct (find (byId (_id d)) us) as [x|] eqn:Hx; [|reflexivity].
    apply find_byId_Some in Hx. destruct Hx as [Hin Hid].
    exfalso. apply Hnotin. rewrite <- Hid. now apply in_map.
  - rewrite E. now apply IH.
Qed.

(** The id of a stored document, in a collection whose [_id]s are
    distinct: the document is removed, the removal is logged, and
    [getUserById] with the same id then throws NotFound. *)
Lemma deleteUserById_existing (id : string) (u : UserDocument) (w : World) :
  castObjectId id = Some (_id u) ->
  find (byId (_id u)) (users w) = Some u ->
  NoDup (map _id (users w)) ->
  let w' := mkWorld (removeFirst (byId (_id u)) (users w))
                    (trace w ++ [EvDelete (_id u)]) in
  deleteUserById id w = (Ok tt, w') /\
  getUserById id w' = (Throw (notFoundId id), w').
Proof.
  intros Hcast Hfind Hnd w'. split.
  - apply wp_equation. unfold deleteUserById.
    do 2 wp_step. rewrite Hcast, existsb_find_byId, Hfind. reduce.
    do 2 wp_step. rewrite Hcast, Hfind. wp_step. split; reflexivity.
  - apply wp_equation. unfold getUserById, isValid. rewrite Hcast. reduce.
    do 2 wp_step. rewrite Hcast. subst w'. reduce.
    rewrite find_removeFirst_NoDup by exact Hnd.
    wp_step. split; reflexivity.
Qed.

(** An id that is not a well-formed ObjectId: the cast error of the
    store escapes [deleteUserById]; the world is as it was. *)
Lemma deleteUserById_malformed (id : string) (w : World) :
  castObjectId id = None ->
  deleteUserById id w = (Throw (CastError id), w).
Proof.
  intros Hcast. apply wp_equation. unfold deleteUserById.
  do 2 wp_step. rewrite Hcast. split; reflexivity.
Qed.

(** C8 -- delete on an id that is not a well-formed ObjectId.  On
    ["invalidId"], the id the tests use as a malformed one, [getUserById]
    throws NotFound, as its validity check intends, while
    [deleteUserById], which has no such check, lets the cast error of the
    store escape; neither touches the world. *)
Theorem deleteUserById_malformed_id (w : World) :
  getUserById "invalidId" w
    = (Throw (NotFoundException "User with id invalidId does not exist"), w) /\
  deleteUserById "invalidId" w = (Throw (CastError "invalidId"), w).
Proof. repeat split. Qed.

End DirectoryFacts.

(** ** Authentication and authorization *)

Section AuthFacts.

Context {bcrypt : Bcrypt} {jwt : JwtService}.

(** C3 -- validateCredentials.  For every username and plaintext
    password: when no stored document has the username, [validateUser]
    throws the NotFound exception of the lookup; when the lookup finds a
    document and bcrypt does not match the password against its stored
    hash, the result is null; when the lookup finds a document and bcrypt
    matches, the result is what the rest pattern copies from the hydrated
    document -- its [$__], its [$isNew] and its [_doc] -- so the result
    is not the document's [_id], username and roles, and the stored
    password hash is still in it, inside [_doc].  The world is never
    changed. *)
Theorem validateUser_cases (name pw : string) (w : World) :
  ((forall u, In u (users w) -> username u <> name) ->
   validateUser name pw w
     = (Throw (NotFoundException ("User with name " ++ name ++ " does not exist")), w)) /\
  (forall u,
     find (byUsername name) (users w) = Some u ->
     bcrypt_compare pw (password u) = true ->
     validateUser name pw w = (Ok (Some (mkOwnProperties internalCache false u)), w) /\
     exists r,
       fst (validateUser name pw w) = Ok (Some r) /\
       password (_doc r) = password u) /\
  (forall u,
     find (byUsername name) (users w) = Some u ->
     bcrypt_compare pw (password u) = false ->
     validateUser name pw w = (Ok None, w)).
Proof.
  unfold validateUser, comparePassword, restWithoutPassword, bind, ret.
  split; [|split].
  - intros Hnone. rewrite getUserByUsername_run.
    destruct (find (byUsername name) (users w)) as [u|] eqn:Hfind; [|reflexivity].
    apply find_byUsername_Some in Hfind. destruct Hfind as [Hin Hn].
    now destruct (Hnone u Hin).
  - intros u Hfind Hmatch. rewrite getUserByUsername_run, Hfind, Hmatch.
    split; [reflexivity|].
    exists (mkOwnProperties internalCache false u). split; reflexivity.
  - intros u Hfind Hmatch. rewrite getUserByUsername_run, Hfind, Hmatch.
    reflexivity.
Qed.

(** C2 -- login.  In a store whose usernames are distinct, for every
    stored document [u] and every submitted password, [login] with [u]'s
    username succeeds without touching the world; the token is the
    signature of the payload built from [u]; and, provided that token
    verifies to the payload that was signed, the identity the token check
    attaches to a request bearing it is [u]'s [_id], [u]'s username (the
    submitted one) and [u]'s roles. *)
Theorem login_claims (w : World) (u : UserDocument) (pw : string) :
  In u (users w) ->
  uniqueUsernames (users w) ->
  jwt_verify (jwt_sign (mkJwtPayload (username u) (_id u) (roles u)))
    = Some (mkJwtPayload (username u) (_id u) (roles u)) ->
  exists token,
    login (mkLoginBody (username u) pw) w = (Ok (mkAccessToken token), w) /\
    token = jwt_sign (mkJwtPayload (username u) (_id u) (roles u)) /\
    JwtAuthGuard (mkRequest (Some token) None)
      = Ok (mkRequest (Some token)
              (Some (mkIdentity (_id u) (username u) (Some (roles u))))).
Proof.
  intros Hin Hu Hverify. eexists. split; [|split; [reflexivity|]].
  - unfold login, bind, ret. cbn [body_username].
    rewrite getUserByUsername_run, (find_byUsername_unique _ _ Hu Hin).
    reflexivity.
  - unfold JwtAuthGuard. cbn [bearer]. rewrite Hverify. reflexivity.
Qed.

Lemma includes_In (rs : list string) (role : string) :
  includes rs role = true <-> In role rs.
Proof.
  unfold includes. rewrite existsb_exists. split.
  - intros [x [Hin Heq]]. apply String.eqb_eq in Heq. now subst.
  - intros Hin. exists role. split; [exact Hin | apply String.eqb_refl].
Qed.

Lemma canActivate_declared (rs : list Role.t) (user : option Identity) :
  canActivate (HasRoles rs) None user = true <->
  exists role, In role rs /\ userHasRole user role = true.
Proof. unfold canActivate, HasRoles. cbn [getAllAndOverride]. apply existsb_exists. Qed.

(** C1 (amended) -- Role Authorization Check.  For every request whose
    token check has succeeded with identity [ident]: a handler with no
    declared role list answers it; a handler with a declared list answers
    it when the identity's roles contain a listed role, and rejects it
    with the Forbidden exception when they contain none of the listed
    roles -- which is the case of every identity when the declared list
    is empty. *)
Theorem roles_guard_after_token_check (req : Request) (token : string)
  (payload : JwtPayload) :
  bearer req = Some token ->
  jwt_verify token = Some payload ->
  guardedHandler None req
    = Ok (mkResponse OK (Some (JwtStrategy_validate payload))) /\
  (forall rs role,
     In role rs -> In role (payload_roles payload) ->
     guardedHandler (HasRoles rs) req
       = Ok (mkResponse OK (Some (JwtStrategy_validate payload)))) /\
  (forall rs,
     (forall role, In role rs -> ~ In role (payload_roles payload)) ->
     guardedHandler (HasRoles rs) req
       = Throw (ForbiddenException "Forbidden resource")) /\
  guardedHandler (HasRoles []) req
    = Throw (ForbiddenException "Forbidden resource").
Proof.
  intros Hbearer Hverify.
  assert (Hguard : JwtAuthGuard req
            = Ok (mkRequest (bearer req) (Some (JwtStrategy_validate payload)))).
  { unfold JwtAuthGuard. now rewrite Hbearer, Hverify. }
  unfold guardedHandler, RolesGuard. rewrite Hguard. cbn [req_user].
  repeat split.
  - intros rs role Hin Hhas.
    assert (Hact : canActivate (HasRoles rs) None (Some (JwtStrategy_validate payload)) = true).
    { apply canActivate_declared. exists role. split; [exact Hin|].
      cbn. now apply includes_In. }
    now rewrite Hact.
  - intros rs Hnone.
    destruct (canActivate (HasRoles rs) None (Some (JwtStrategy_validate payload)))
      eqn:Hact; [|reflexivity].
    apply canActivate_declared in Hact. destruct Hact as [role [Hin Hhas]].
    cbn in Hhas. apply includes_In in Hhas. now destruct (Hnone role Hin).
Qed.

End AuthFacts.

(** ** What the user listing exposes *)

(** C6 (amended) -- listAll at the HTTP boundary.  For every store, the
    listing endpoint answers with every stored document, in collection
    order, each with all its fields, the stored password included: status
    204 when there is none, 200 otherwise; the world is not changed. *)
Theorem getAllUsers_exposes_passwords (w : World) :
  UserController_getAllUsers w
    = (Ok (mkResponse (match users w with [] => NO_CONTENT | _ => OK end)
                      (map toJSON (users w))), w) /\
  map json_password (map toJSON (users w)) = map (fun d => Some (password d)) (users w).
Proof.
  split.
  - unfold UserController_getAllUsers, getAllUsers, Model_find, getUsers, bind, ret.
    now destruct (users w).
  - rewrite map_map. reflexivity.
Qed.

(* ================================================================== *)
(** * Further properties of the directory *)
(* ================================================================== *)

Lemma find_byId_unique (us : list UserDocument) (u : UserDocument) :
  uniqueIds us -> In u us -> find (byId (_id u)) us = Some u.
Proof.
  unfold uniqueIds.
  induction us as [|d us IH]; simpl; intros Hnd Hin; [contradiction|].
  inversion Hnd as [|? ? Hnotin Hnd']; subst.
  destruct Hin as [-> | Hin].
  - now rewrite (proj2 (byId_true (_id u) u) eq_refl).
  - destruct (byId (_id u) d) eqn:E.
    + apply byId_true in E. exfalso. apply Hnotin. rewrite E. now apply in_map.
    + now apply IH.
Qed.

Lemma find_byId_absent (oid : ObjectId) (us : list UserDocument) :
  (forall u, In u us -> _id u <> oid) -> find (byId oid) us = None.
Proof.
  intros H. destruct (find (byId oid) us) as [u|] eqn:Hfind; [|reflexivity].
  apply find_byId_Some in Hfind. destruct Hfind as [Hin Hid].
  now destruct (H u Hin).
Qed.

Lemma In_removeFirst_byId (oid : ObjectId) (us : list UserDocument)
  (d : UserDocument) :
  uniqueIds us ->
  (In d (removeFirst (byId oid) us) <-> In d us /\ _id d <> oid).
Proof.
  unfold uniqueIds.
  induction us as [|e us IH]; simpl; intros Hnd; [tauto|].
  inversion Hnd as [|? ? Hnotin Hnd']; subst.
  destruct (byId oid e) eqn:E.
  - apply byId_true in E. split.
    + intros Hin. split; [now right|].
      intros Hd. apply Hnotin. rewrite E, <- Hd. now apply in_map.
    + intros [[-> | Hin] Hne]; [contradiction | exact Hin].
  - simpl. rewrite (IH Hnd'). split.
    + intros [-> | [Hin Hne]].
      * split; [now left|]. intros Hd. apply byId_true in Hd. congruence.
      * split; [now right | exact Hne].
    + intros [[-> | Hin] Hne]; [now left | right; now split].
Qed.

Section MoreDirectoryFacts.

Context {bcrypt : Bcrypt} {config : ConfigService}.

Ltac wp_go :=
  lazymatch goal with
  | |- wp (bind _ _) _ _ => apply wp_bind
  | |- wp (ret _) _ _ => apply wp_ret
  | |- wp (throw _) _ _ => apply wp_throw
  | |- wp (emit _) _ _ => apply wp_emit
  | |- wp (Model_findOne (Some _)) _ _ => apply wp_findOne
  | |- wp (Model_findOne None) _ _ => apply wp_findOne_undefined
  | |- wp (Model_findById _) _ _ => apply wp_findById
  | |- wp (Model_exists _) _ _ => apply wp_exists
  | |- wp (Model_findByIdAndDelete _) _ _ => apply wp_findByIdAndDelete
  | |- wp (Model_create _ _ _) _ _ => apply wp_create
  | |- wp (Document_save _) _ _ => apply wp_save
  | |- wp (hashPassword _ _) _ _ => apply wp_hashPassword
  end;
  reduce.

Ltac wp_all := repeat first [ wp_go | progress cbn [truthy] ].

Lemma getUserById_run (id : string) (w : World) :
  getUserById id w =
  (match castObjectId id with
   | Some oid =>
       match find (byId oid) (users w) with
       | Some u => Ok u
       | None => Throw (notFoundId id)
       end
   | None => Throw (notFoundId id)
   end, w).
Proof.
  unfold getUserById, isValid, Model_findById.
  destruct (castObjectId id) as [oid|]; reduce; [|reflexivity].
  run_model. now destruct (find (byId oid) (users w)).
Qed.

(** X1 -- getUserById.  Whatever the id string, [getUserById] leaves the
    world as it is and either returns a stored document whose [_id] the
    string denotes or throws NotFound; no other exception escapes, a cast
    error included.  In a collection with distinct [_id]s it returns
    every stored document when asked with an id string that denotes its
    [_id]; it throws NotFound when no stored document has the denoted
    [_id]. *)
Theorem getUserById_cases (id : string) (w : World) :
  (exists o, getUserById id w = (o, w) /\
     (o = Throw (NotFoundException ("User with id " ++ id ++ " does not exist")) \/
      exists u, o = Ok u /\ In u (users w) /\ castObjectId id = Some (_id u))) /\
  (forall u, uniqueIds (users w) -> In u (users w) ->
     castObjectId id = Some (_id u) -> getUserById id w = (Ok u, w)) /\
  (forall oid, castObjectId id = Some oid ->
     (forall u, In u (users w) -> _id u <> oid) ->
     getUserById id w
       = (Throw (NotFoundException ("User with id " ++ id ++ " does not exist")), w)).
Proof.
  rewrite getUserById_run. repeat split.
  - eexists. split; [reflexivity|].
    destruct (castObjectId id) as [oid|]; [|now left].
    destruct (find (byId oid) (users w)) as [u|] eqn:Hfind; [|now left].
    right. exists u. apply find_byId_Some in Hfind. destruct Hfind as [Hin <-].
    auto.
  - intros u Hids Hin Hcast. rewrite Hcast.
    now rewrite (find_byId_unique _ _ Hids Hin).
  - intros oid Hcast Hnone. rewrite Hcast.
    now rewrite (find_byId_absent _ _ Hnone).
Qed.

(** X2 -- delete on a well-formed id.  Let the id string denote an
    ObjectId.  When no stored document has it, [deleteUserById] throws
    NotFound and the world is as it was.  When the lookup finds a
    document, [deleteUserById] succeeds, removes it and logs the removal;
    and in a collection with distinct [_id]s the documents left are
    exactly the stored documents with another [_id], so that
    [getUserById] with the same id then throws NotFound. *)
Theorem deleteUserById_wellformed (id : string) (oid : ObjectId) (w : World) :
  castObjectId id = Some oid ->
  (find (byId oid) (users w) = None ->
   deleteUserById id w
     = (Throw (NotFoundException ("User with id " ++ id ++ " does not exist")), w)) /\
  (forall u, find (byId oid) (users w) = Some u ->
     let w' := mkWorld (removeFirst (byId oid) (users w))
                       (trace w ++ [EvDelete oid]) in
     deleteUserById id w = (Ok tt, w') /\
     (uniqueIds (users w) ->
      (forall d, In d (users w') <-> In d (users w) /\ _id d <> oid) /\
      getUserById id w'
        = (Throw (NotFoundException ("User with id " ++ id ++ " does not exist")), w'))).
Proof.
  intros Hcast. split.
  - intros Hnone. exact (deleteUserById_absent id oid w Hcast Hnone).
  - intros u Hfind w'.
    destruct (find_byId_Some _ _ _ Hfind) as [_ Hid]. subst oid.
    split.
    + intros. apply wp_equation. unfold deleteUserById.
      do 2 wp_go. rewrite Hcast, existsb_find_byId, Hfind. reduce.
      do 2 wp_go. rewrite Hcast, Hfind. wp_go. split; reflexivity.
    + intros Hids. split.
      * intros d. subst w'. reduce. now apply In_removeFirst_byId.
      * exact (proj2 (deleteUserById_existing id u w Hcast Hfind Hids)).
Qed.

(** X3 -- the writing operations on a malformed id.  For an id string
    that denotes no ObjectId, [updateUserById], [patchUserById] and
    [deleteUserById] all let the cast error of the store escape, whatever
    the body is, and leave the world as it was; none of them answers
    NotFound, as [getUserById] does. *)
Theorem writes_on_malformed_id (fresh : Fresh) (id : string) (user : User)
  (partialUser : PartialUser) (w : World) :
  castObjectId id = None ->
  updateUserById fresh id user w = (Throw (CastError id), w) /\
  patchUserById fresh id partialUser w = (Throw (CastError id), w) /\
  deleteUserById id w = (Throw (CastError id), w) /\
  getUserById id w
    = (Throw (NotFoundException ("User with id " ++ id ++ " does not exist")), w).
Proof.
  intros Hcast. repeat split.
  - rewrite updateUserById_as_patch. apply wp_equation. unfold patchUserById.
    do 2 wp_go. rewrite Hcast. split; reflexivity.
  - apply wp_equation. unfold patchUserById.
    do 2 wp_go. rewrite Hcast. split; reflexivity.
  - exact (deleteUserById_malformed id w Hcast).
  - rewrite getUserById_run, Hcast. reflexivity.
Qed.

(** *** A request that throws has written no document *)

Lemma createUser_throw (fresh : Fresh) (candidate : PartialUser) (w : World) :
  wp (createUser fresh candidate) (keepsCollectionOnThrow w) w.
Proof.
  unfold createUser, keepsCollectionOnThrow.
  destruct candidate as [name pw rs]; reduce.
  assert (Hrest : forall tail : option string,
    wp (hashedPassword <- hashPassword (fresh_salt fresh) pw ;;
        newUser <- Model_create (fresh_oid fresh) tail hashedPassword ;;
        Document_save newUser)
       (fun (o : Outcome unit) w' =>
          match o with Throw _ => users w' = users w | Ok _ => True end) w).
  { intros tail. do 2 wp_go. destruct pw as [p|]; [|reflexivity].
    do 2 wp_go.
    destruct (required tail && required (Some (bcrypt_hash p BCRYPT_SALT_ROUNDS (fresh_salt fresh))))
      eqn:Hreq; reduce; [|reflexivity].
    destruct (existsb (byId (fresh_oid fresh)) (users w)); reduce; [reflexivity|].
    wp_go. destruct tail as [n|]; [|discriminate].
    unfold validateSync. reduce. now rewrite Hreq. }
  destruct name as [n|].
  - do 2 wp_go.
    destruct (find (byUsername n) (users w)); reduce; [wp_go; reflexivity|].
    apply Hrest.
  - do 2 wp_go. apply Hrest.
Qed.

Lemma patchUserById_throw (fresh : Fresh) (id : string)
  (partialUser : PartialUser) (w : World) :
  wp (patchUserById fresh id partialUser) (keepsCollectionOnThrow w) w.
Proof.
  unfold patchUserById, keepsCollectionOnThrow.
  do 2 wp_go.
  destruct (castObjectId id) as [oid|]; [|reflexivity].
  destruct (find (byId oid) (users w)) as [u|]; reduce; [|wp_go; reflexivity].
  destruct partialUser as [name pw rs]; reduce.
  assert (Hsave : forall (doc : UserDocument) (tr : list Event),
    wp (Document_save doc)
       (fun (o : Outcome unit) w' =>
          match o with Throw _ => users w' = users w | Ok _ => True end)
       (mkWorld (users w) tr)).
  { intros doc tr. wp_go. now destruct (validateSync doc). }
  assert (Hrest : forall u1 : UserDocument,
    wp (userDb2 <-
          (if truthy pw
           then h <- hashPassword (fresh_salt fresh) pw ;; ret (setPassword u1 h)
           else ret u1) ;;
        Document_save
          match rs with
          | Some rs0 => setRoles userDb2 rs0
          | None => userDb2
          end)
       (fun (o : Outcome unit) w' =>
          match o with Throw _ => users w' = users w | Ok _ => True end) w).
  { intros u1. wp_go.
    destruct (truthy pw) eqn:Hpw.
    - do 2 wp_go. destruct pw as [p|]; [|discriminate].
      wp_go. apply Hsave.
    - wp_go. rewrite <- (world_eta w). apply Hsave. }
  wp_go.
  destruct name as [newName|].
  - destruct (truthy (Some newName) && negb (newName =? username u)%string).
    + do 2 wp_go.
      destruct (find (byUsername newName) (users w)); reduce.
      * wp_go. reflexivity.
      * wp_go. apply Hrest.
    + wp_go. apply Hrest.
  - wp_go. apply Hrest.
Qed.

Lemma deleteUserById_throw (id : string) (w : World) :
  wp (deleteUserById id) (keepsCollectionOnThrow w) w.
Proof.
  unfold deleteUserById, keepsCollectionOnThrow. do 2 wp_go.
  destruct (castObjectId id) as [oid|] eqn:Hcast; [|reflexivity].
  destruct (existsb (byId oid) (users w)); reduce; [|wp_go; reflexivity].
  do 2 wp_go. rewrite Hcast.
  destruct (find (byId oid) (users w)); wp_go; exact I.
Qed.

(** X4 -- a request that throws has written no document.  Whenever a
    create, replace, patch or delete request ends with an exception, of
    whatever kind, the collection is exactly as it was before the
    request: no document was inserted, overwritten or removed on the
    way. *)
Theorem failed_request_keeps_collection (op : Operation) (w : World)
  (e : Exception) :
  fst (perform op w) = Throw e ->
  users (snd (perform op w)) = users w.
Proof.
  intros Hthrow.
  assert (H : wp (perform op) (keepsCollectionOnThrow w) w).
  { destruct op; cbn [perform].
    - apply createUser_throw.
    - rewrite updateUserById_as_patch. apply patchUserById_throw.
    - apply patchUserById_throw.
    - apply deleteUserById_throw. }
  unfold wp, keepsCollectionOnThrow in H. now rewrite Hthrow in H.
Qed.

(** X5 -- the [_id]s stay distinct.  Starting from a collection in which
    no two documents share an [_id], every sequence of create, replace,
    patch and delete requests ends in such a collection, whatever
    ObjectIds the environment generates for the creates. *)
Theorem ids_stay_distinct (ops : list Operation) (w : World) :
  uniqueIds (users w) -> uniqueIds (users (runAll ops w)).
Proof.
  revert w. induction ops as [|op ops IH]; intros w Hi; cbn [runAll].
  - exact Hi.
  - apply IH. exact (Step_uniqueIds _ _ (perform_step op w) Hi).
Qed.

(** X6 -- the documents stay valid for the schema.  Starting from a
    collection in which every document has a non-empty username and a
    non-empty password, every sequence of create, replace, patch and
    delete requests ends in such a collection. *)
Theorem documents_stay_valid (ops : list Operation) (w : World) :
  schemaValid (users w) -> schemaValid (users (runAll ops w)).
Proof.
  revert w. induction ops as [|op ops IH]; intros w Hv; cbn [runAll].
  - exact Hv.
  - apply IH. exact (Step_schemaValid _ _ (perform_step op w) Hv).
Qed.

Lemma eqb_empty_false (s : string) :
  negb (s =? EmptyString)%string = true <-> s <> EmptyString.
Proof.
  rewrite negb_true_iff. apply String.eqb_neq.
Qed.

Lemma createUser_accepts (fresh : Fresh) (name pw : string)
  (rs : option (list string)) (w : World) :
  name <> EmptyString ->
  bcrypt_hash pw BCRYPT_SALT_ROUNDS (fresh_salt fresh) <> EmptyString ->
  find (byUsername name) (users w) = None ->
  find (byId (fresh_oid fresh)) (users w) = None ->
  createUser fresh (mkPartialUser (Some name) (Some pw) rs) w =
  (Ok tt,
   mkWorld
     (users w ++ [mkUserDocument (fresh_oid fresh) name
                    (bcrypt_hash pw BCRYPT_SALT_ROUNDS (fresh_salt fresh))
                    default_roles])
     (trace w ++
      [EvHash pw;
       EvCreate (mkUserDocument (fresh_oid fresh) name
                   (bcrypt_hash pw BCRYPT_SALT_ROUNDS (fresh_salt fresh))
                   default_roles);
       EvSave (mkUserDocument (fresh_oid fresh) name
                 (bcrypt_hash pw BCRYPT_SALT_ROUNDS (fresh_salt fresh))
                 default_roles)])).
Proof.
  intros Hne Hhash Hfree Hid.
  apply wp_equation. unfold createUser. reduce.
  do 2 wp_go. rewrite Hfree. reduce.
  do 4 wp_go. cbn [required].
  rewrite (proj2 (eqb_empty_false name) Hne).
  rewrite (proj2 (eqb_empty_false _) Hhash). reduce.
  rewrite existsb_find_byId, Hid. reduce.
  wp_go. unfold validateSync. cbn [required username password].
  rewrite (proj2 (eqb_empty_false name) Hne).
  rewrite (proj2 (eqb_empty_false _) Hhash). reduce.
  rewrite replaceFirst_last by exact Hid.
  split; [reflexivity|]. f_equal. rewrite <- !app_assoc. reflexivity.
Qed.

(** X7 -- when create accepts.  [createUser] returns normally exactly
    when the candidate has a non-empty username that no stored document
    has, has a password whose hash is not empty, and the ObjectId
    generated for the new document is not in use; the world it leaves is
    the old one with the new document appended (the given username, the
    hash, the default roles) and three events logged: the hash, the
    insertion and the save. *)
Theorem createUser_accepts_iff (fresh : Fresh) (candidate : PartialUser)
  (w w' : World) :
  createUser fresh candidate w = (Ok tt, w') <->
  exists name pw,
    partial_username candidate = Some name /\
    partial_password candidate = Some pw /\
    name <> EmptyString /\
    bcrypt_hash pw BCRYPT_SALT_ROUNDS (fresh_salt fresh) <> EmptyString /\
    find (byUsername name) (users w) = None /\
    find (byId (fresh_oid fresh)) (users w) = None /\
    w' = mkWorld
           (users w ++ [mkUserDocument (fresh_oid fresh) name
                          (bcrypt_hash pw BCRYPT_SALT_ROUNDS (fresh_salt fresh))
                          default_roles])
           (trace w ++
            [EvHash pw;
             EvCreate (mkUserDocument (fresh_oid fresh) name
                         (bcrypt_hash pw BCRYPT_SALT_ROUNDS (fresh_salt fresh))
                         default_roles);
             EvSave (mkUserDocument (fresh_oid fresh) name
                       (bcrypt_hash pw BCRYPT_SALT_ROUNDS (fresh_salt fresh))
                       default_roles)]).
Proof.
  split.
  - intros Hrun.
    destruct (createUser_Ok _ _ _ _ Hrun)
      as (name & pw & Hname & Hpw & Hfree & Hid & Hw').
    cbv zeta in Hw'. exists name, pw. repeat split; auto.
    + intros ->.
      destruct candidate as [n p rs]. reduce. subst n p.
      revert Hrun. unfold createUser, hashPassword. run_model.
      rewrite Hfree. reduce. discriminate.
    + intros Hempty.
      destruct candidate as [n p rs]. reduce. subst n p.
      revert Hrun. unfold createUser, hashPassword. run_model.
      rewrite Hfree. reduce. cbn [required]. rewrite Hempty.
      rewrite andb_comm. reduce. discriminate.
  - intros (name & pw & Hname & Hpw & Hne & Hhash & Hfree & Hid & ->).
    destruct candidate as [n p rs]. reduce. subst n p.
    now apply createUser_accepts.
Qed.

(** X8 -- create does not check its candidate.  A candidate without a
    password, whose username nobody has, fails inside bcrypt before
    anything is logged or written.  A candidate with a password but
    without a username, or with the empty username when no stored
    document has the empty username, has its password hashed first and
    is rejected by the validation of the schema afterwards: the hash is
    logged and no document is inserted. *)
Theorem createUser_incomplete_candidate (fresh : Fresh) (w : World) :
  (forall name rs,
     match name with
     | Some n => find (byUsername n) (users w) = None
     | None => True
     end ->
     createUser fresh (mkPartialUser name None rs) w = (Throw BcryptError, w)) /\
  (forall pw rs,
     createUser fresh (mkPartialUser None (Some pw) rs) w
       = (Throw ValidationError, mkWorld (users w) (trace w ++ [EvHash pw]))) /\
  (forall pw rs,
     find (byUsername EmptyString) (users w) = None ->
     createUser fresh (mkPartialUser (Some EmptyString) (Some pw) rs) w
       = (Throw ValidationError, mkWorld (users w) (trace w ++ [EvHash pw]))).
Proof.
  split; [|split].
  - intros name rs Hname. apply wp_equation. unfold createUser. reduce.
    destruct name as [n|]; do 2 wp_go.
    + rewrite Hname. reduce. do 2 wp_go. split; reflexivity.
    + do 2 wp_go. split; reflexivity.
  - intros pw rs. apply wp_equation. unfold createUser. reduce.
    do 6 wp_go. cbn [required andb]. split; reflexivity.
  - intros pw rs Hnone. apply wp_equation. unfold createUser. reduce.
    do 2 wp_go. rewrite Hnone. reduce.
    do 4 wp_go. cbn [required String.eqb negb andb]. split; reflexivity.
Qed.

Lemma changes_username (n : string) (u : UserDocument) :
  n <> EmptyString -> n <> username u ->
  truthy (Some n) && negb (n =? username u)%string = true.
Proof.
  intros Hne Hdiff. cbn [truthy].
  rewrite (proj2 (eqb_empty_false n) Hne).
  now rewrite (proj2 (String.eqb_neq n (username u)) Hdiff).
Qed.

(** X9 -- replace and patch on an id nobody has.  For an id string that
    denotes an ObjectId no stored document has, [updateUserById] and
    [patchUserById] throw NotFound, whatever the body is, and leave the
    world as it was: nothing is hashed, nothing is written. *)
Theorem update_and_patch_not_found (fresh : Fresh) (id : string)
  (oid : ObjectId) (user : User) (partialUser : PartialUser) (w : World) :
  castObjectId id = Some oid ->
  find (byId oid) (users w) = None ->
  updateUserById fresh id user w
    = (Throw (NotFoundException ("User with id " ++ id ++ " does not exist")), w) /\
  patchUserById fresh id partialUser w
    = (Throw (NotFoundException ("User with id " ++ id ++ " does not exist")), w).
Proof.
  intros Hcast Hnone. split.
  - rewrite updateUserById_as_patch. apply wp_equation. unfold patchUserById.
    do 2 wp_go. rewrite Hcast, Hnone. reduce. wp_go. split; reflexivity.
  - apply wp_equation. unfold patchUserById.
    do 2 wp_go. rewrite Hcast, Hnone. reduce. wp_go. split; reflexivity.
Qed.

(** X10 -- replace and patch onto a taken username.  When the body gives
    a non-empty username that differs from the one the addressed
    document has and that some stored document has, [updateUserById] and
    [patchUserById] throw Conflict and leave the world as it was: the
    check comes before the password is looked at, so no password is
    hashed and nothing is written, whatever else the body holds. *)
Theorem update_and_patch_conflict (fresh : Fresh) (id : string)
  (u other : UserDocument) (n : string) (w : World) :
  castObjectId id = Some (_id u) ->
  find (byId (_id u)) (users w) = Some u ->
  n <> EmptyString ->
  n <> username u ->
  find (byUsername n) (users w) = Some other ->
  (forall pw rs,
     updateUserById fresh id (mkUser n pw rs) w
       = (Throw (ConflictException ("Username " ++ n ++ " already exists")), w)) /\
  (forall pw rs,
     patchUserById fresh id (mkPartialUser (Some n) pw rs) w
       = (Throw (ConflictException ("Username " ++ n ++ " already exists")), w)).
Proof.
  intros Hcast Hfind Hne Hdiff Htaken.
  assert (Hpatch : forall pw rs,
     patchUserById fresh id (mkPartialUser (Some n) pw rs) w
       = (Throw (ConflictException ("Username " ++ n ++ " already exists")), w)).
  { intros pw rs. apply wp_equation. unfold patchUserById.
    do 2 wp_go. rewrite Hcast, Hfind. reduce.
    wp_go. rewrite (changes_username n u Hne Hdiff).
    do 2 wp_go. rewrite Htaken. reduce. wp_go. split; reflexivity. }
  split.
  - intros pw rs. rewrite updateUserById_as_patch. apply Hpatch.
  - exact Hpatch.
Qed.

Lemma validateSync_true (d : UserDocument) :
  validateSync d = true <-> username d <> EmptyString /\ password d <> EmptyString.
Proof.
  unfold validateSync. cbn [required]. rewrite andb_true_iff.
  now rewrite !eqb_empty_false.
Qed.

(** X11 -- patch of the password alone.  Let [u] be the stored document
    an id denotes, valid for the schema.  A patch that carries only a
    non-empty password, whose hash is not empty, succeeds and overwrites
    [u] by the document that differs from it in its password alone, which
    becomes the hash of the submitted plaintext; the hash and the save
    are the two events logged.  A patch that carries only the empty
    password hashes nothing: it writes [u] back unchanged. *)
Theorem patch_password_only (fresh : Fresh) (id : string) (u : UserDocument)
  (w : World) :
  castObjectId id = Some (_id u) ->
  find (byId (_id u)) (users w) = Some u ->
  validateSync u = true ->
  (forall p : string,
     p <> EmptyString ->
     bcrypt_hash p BCRYPT_SALT_ROUNDS (fresh_salt fresh) <> EmptyString ->
     let u' := mkUserDocument (_id u) (username u)
                 (bcrypt_hash p BCRYPT_SALT_ROUNDS (fresh_salt fresh)) (roles u) in
     patchUserById fresh id (mkPartialUser None (Some p) None) w
       = (Ok tt, mkWorld (replaceFirst (byId (_id u)) u' (users w))
                         (trace w ++ [EvHash p; EvSave u']))) /\
  patchUserById fresh id (mkPartialUser None (Some EmptyString) None) w
    = (Ok tt, mkWorld (replaceFirst (byId (_id u)) u (users w))
                      (trace w ++ [EvSave u])).
Proof.
  intros Hcast Hfind Hvalid. split.
  - intros p Hp Hhash u'.
    assert (Hv' : validateSync u' = true).
    { apply validateSync_true. apply validateSync_true in Hvalid.
      subst u'. reduce. tauto. }
    apply wp_equation. unfold patchUserById.
    do 2 wp_go. rewrite Hcast, Hfind. reduce.
    do 2 wp_go. cbn [truthy]. rewrite (proj2 (eqb_empty_false p) Hp).
    do 4 wp_go.
    change (setPassword u (bcrypt_hash p BCRYPT_SALT_ROUNDS (fresh_salt fresh)))
      with u'.
    wp_go. rewrite Hv'. split; [reflexivity|].
    unfold setPassword. f_equal. rewrite <- app_assoc. reflexivity.
  - apply wp_equation. unfold patchUserById.
    do 2 wp_go. rewrite Hcast, Hfind. reduce.
    do 2 wp_go. cbn [truthy String.eqb negb]. repeat wp_go.
    rewrite Hvalid. split; reflexivity.
Qed.

Lemma find_byUsername_replaceFirst_new (oid : ObjectId) (u u' : UserDocument)
  (us : list UserDocument) :
  find (byId oid) us = Some u ->
  find (byUsername (username u')) us = None ->
  find (byUsername (username u')) (replaceFirst (byId oid) u' us) = Some u'.
Proof.
  induction us as [|d us IH]; simpl; [discriminate|].
  destruct (byUsername (username u') d) eqn:En; [discriminate|].
  destruct (byId oid d) eqn:Ei; simpl; intros Hfind Hnone.
  - now rewrite (proj2 (byUsername_true (username u') u') eq_refl).
  - rewrite En. now apply IH.
Qed.

Lemma find_byUsername_replaceFirst_old (oid : ObjectId) (u u' : UserDocument)
  (us : list UserDocument) :
  uniqueUsernames us ->
  find (byId oid) us = Some u ->
  username u' <> username u ->
  find (byUsername (username u)) (replaceFirst (byId oid) u' us) = None.
Proof.
  unfold uniqueUsernames. intros Hnd Hfind Hdiff.
  destruct (find_split _ _ _ Hfind) as (l1 & l2 & -> & Hrep & _).
  rewrite Hrep. apply find_byUsername_None.
  rewrite map_app in *. simpl in *.
  apply NoDup_remove_2 in Hnd.
  intros Hin. apply in_app_or in Hin.
  destruct Hin as [Hin | [Hin | Hin]].
  - apply Hnd. apply in_or_app. now left.
  - now apply Hdiff.
  - apply Hnd. apply in_or_app. now right.
Qed.

(** X12 -- renaming by patch.  In a store with distinct usernames, let
    [u] be the stored document an id denotes, valid for the schema, and
    [n] a non-empty username, other than [u]'s, that no stored document
    has.  The patch that carries only [n] succeeds; afterwards the lookup
    by [n] returns [u] under its new name, with the [_id], password and
    roles it had, and the lookup by the old name throws NotFound. *)
Theorem patch_rename_lookup (fresh : Fresh) (id : string) (u : UserDocument)
  (n : string) (w : World) :
  uniqueUsernames (users w) ->
  castObjectId id = Some (_id u) ->
  find (byId (_id u)) (users w) = Some u ->
  validateSync u = true ->
  n <> EmptyString ->
  n <> username u ->
  find (byUsername n) (users w) = None ->
  let u' := mkUserDocument (_id u) n (password u) (roles u) in
  let w' := mkWorld (replaceFirst (byId (_id u)) u' (users w))
                    (trace w ++ [EvSave u']) in
  patchUserById fresh id (mkPartialUser (Some n) None None) w = (Ok tt, w') /\
  getUserByUsername n w' = (Ok u', w') /\
  getUserByUsername (username u) w'
    = (Throw (NotFoundException
                ("User with name " ++ username u ++ " does not exist")), w').
Proof.
  intros Hu Hcast Hfind Hvalid Hne Hdiff Hfree u' w'.
  assert (Hv' : validateSync u' = true).
  { apply validateSync_true. apply validateSync_true in Hvalid.
    subst u'. reduce. tauto. }
  split; [|split].
  - apply wp_equation. unfold patchUserById.
    do 2 wp_go. rewrite Hcast, Hfind. reduce.
    wp_go. rewrite (changes_username n u Hne Hdiff).
    do 2 wp_go. rewrite Hfree. reduce.
    wp_all.
    change (validateSync (setUsername u n)) with (validateSync u').
    rewrite Hv'. split; reflexivity.
  - rewrite getUserByUsername_run. subst w'. reduce.
    change n with (username u') at 1.
    now rewrite (find_byUsername_replaceFirst_new _ u u' _ Hfind Hfree).
  - rewrite getUserByUsername_run. subst w'. reduce.
    now rewrite (find_byUsername_replaceFirst_old _ u u' _ Hu Hfind Hdiff).
Qed.

(** X13 -- a full update replaces every field.  Let [u] be the stored
    document an id denotes.  A full update whose username is not empty
    and is [u]'s own or one no stored document has, and whose password is
    not empty and has a non-empty hash, succeeds and overwrites [u] by
    the document with [u]'s [_id], the given username, the hash of the
    given password and the given roles -- the empty role list included;
    the hash and the save are the two events logged. *)
Theorem update_replaces_every_field (fresh : Fresh) (id : string)
  (u : UserDocument) (n pw : string) (rs : list string) (w : World) :
  castObjectId id = Some (_id u) ->
  find (byId (_id u)) (users w) = Some u ->
  n <> EmptyString ->
  n = username u \/ find (byUsername n) (users w) = None ->
  pw <> EmptyString ->
  bcrypt_hash pw BCRYPT_SALT_ROUNDS (fresh_salt fresh) <> EmptyString ->
  let u' := mkUserDocument (_id u) n
              (bcrypt_hash pw BCRYPT_SALT_ROUNDS (fresh_salt fresh)) rs in
  updateUserById fresh id (mkUser n pw rs) w
    = (Ok tt, mkWorld (replaceFirst (byId (_id u)) u' (users w))
                      (trace w ++ [EvHash pw; EvSave u'])).
Proof.
  intros Hcast Hfind Hne Hname Hpw Hhash u'.
  assert (Hv' : validateSync u' = true).
  { apply validateSync_true. subst u'. reduce. tauto. }
  rewrite updateUserById_as_patch. reduce.
  apply wp_equation. unfold patchUserById.
  do 2 wp_go. rewrite Hcast, Hfind. reduce. wp_go.
  destruct (String.eqb_spec n (username u)) as [Heq | Hdiff].
  - cbn [truthy negb]. rewrite andb_false_r. subst n.
    wp_all. rewrite (proj2 (eqb_empty_false pw) Hpw). wp_all.
    change (setRoles (setPassword u (bcrypt_hash pw BCRYPT_SALT_ROUNDS (fresh_salt fresh))) rs)
      with u'.
    rewrite Hv'. split; [reflexivity|].
    f_equal. rewrite <- app_assoc. reflexivity.
  - destruct Hname as [Heq | Hfree]; [contradiction|].
    cbn [truthy negb]. rewrite (proj2 (eqb_empty_false n) Hne). reduce.
    wp_all. rewrite Hfree. reduce.
    wp_all. rewrite (proj2 (eqb_empty_false pw) Hpw). wp_all.
    change (setRoles (setPassword (setUsername u n)
              (bcrypt_hash pw BCRYPT_SALT_ROUNDS (fresh_salt fresh))) rs)
      with u'.
    rewrite Hv'. split; [reflexivity|].
    f_equal. rewrite <- app_assoc. reflexivity.
Qed.

(** X14 -- empty strings in a full update.  Let [u] be the stored
    document an id denotes, valid for the schema.  A full update whose
    username and password are both the empty string keeps [u]'s username
    and stored password, hashes nothing, and overwrites the roles alone;
    the save is the one event logged. *)
Theorem update_ignores_empty_strings (fresh : Fresh) (id : string)
  (u : UserDocument) (rs : list string) (w : World) :
  castObjectId id = Some (_id u) ->
  find (byId (_id u)) (users w) = Some u ->
  validateSync u = true ->
  let u' := mkUserDocument (_id u) (username u) (password u) rs in
  updateUserById fresh id (mkUser EmptyString EmptyString rs) w
    = (Ok tt, mkWorld (replaceFirst (byId (_id u)) u' (users w))
                      (trace w ++ [EvSave u'])).
Proof.
  intros Hcast Hfind Hvalid u'.
  rewrite updateUserById_as_patch. reduce.
  apply wp_equation. unfold patchUserById.
  do 2 wp_go. rewrite Hcast, Hfind. reduce.
  wp_go. cbn [truthy String.eqb negb andb]. wp_all.
  change (validateSync (setRoles u rs)) with (validateSync u).
  rewrite Hvalid. split; reflexivity.
Qed.

(** *** The passwords the directory writes are hashes *)

Lemma passwordsFrom_refl (us : list UserDocument) : passwordsFrom us us.
Proof.
  unfold passwordsFrom. apply Forall_forall. intros d Hin. left.
  now apply in_map.
Qed.

Lemma passwordsFrom_trans (a b c : list UserDocument) :
  passwordsFrom a b -> passwordsFrom b c -> passwordsFrom a c.
Proof.
  unfold passwordsFrom. rewrite !Forall_forall. intros Hab Hbc d Hin.
  destruct (Hbc d Hin) as [Hold | Hhash]; [|now right].
  apply in_map_iff in Hold. destruct Hold as [e [He Hine]].
  rewrite <- He. now apply Hab.
Qed.

Lemma passwordsFrom_append (us : list UserDocument) (d : UserDocument) :
  isHash (password d) -> passwordsFrom us (us ++ [d]).
Proof.
  intros Hd. unfold passwordsFrom. apply Forall_app. split.
  - apply passwordsFrom_refl.
  - constructor; [now right | constructor].
Qed.

Lemma passwordsFrom_replace (p : UserDocument -> bool) (u doc : UserDocument)
  (us : list UserDocument) :
  find p us = Some u ->
  password doc = password u \/ isHash (password doc) ->
  passwordsFrom us (replaceFirst p doc us).
Proof.
  intros Hfind Hdoc.
  destruct (find_split _ _ _ Hfind) as (l1 & l2 & Hus & Hrep & _).
  rewrite Hrep. unfold passwordsFrom. apply Forall_forall. intros d Hin.
  apply in_app_or in Hin. destruct Hin as [Hin | [<- | Hin]].
  - left. apply in_map. rewrite Hus. apply in_or_app. now left.
  - destruct Hdoc as [Hsame | Hhash]; [left | now right].
    rewrite Hsame. apply in_map. rewrite Hus. apply in_or_app. right. now left.
  - left. apply in_map. rewrite Hus. apply in_or_app. right. now right.
Qed.

Lemma passwordsFrom_remove (p : UserDocument -> bool) (us : list UserDocument) :
  passwordsFrom us (removeFirst p us).
Proof.
  unfold passwordsFrom. apply Forall_forall. intros d Hin. left.
  apply in_map.
  destruct (find p us) as [u|] eqn:Hfind.
  - destruct (find_split _ _ _ Hfind) as (l1 & l2 & Hus & _ & Hrem).
    rewrite Hrem in Hin. rewrite Hus. apply in_app_or in Hin. apply in_or_app.
    destruct Hin; [now left | right; now right].
  - now rewrite removeFirst_absent in Hin.
Qed.

Lemma createUser_passwords (fresh : Fresh) (candidate : PartialUser) (w : World) :
  wp (createUser fresh candidate)
     (fun _ w' => passwordsFrom (users w) (users w')) w.
Proof.
  unfold createUser.
  destruct candidate as [name pw rs]; reduce.
  assert (Hrest : forall tail : option string,
    wp (hashedPassword <- hashPassword (fresh_salt fresh) pw ;;
        newUser <- Model_create (fresh_oid fresh) tail hashedPassword ;;
        Document_save newUser)
       (fun _ w' => passwordsFrom (users w) (users w')) w).
  { intros tail. do 2 wp_go. destruct pw as [p|]; [|apply passwordsFrom_refl].
    do 2 wp_go.
    destruct (required tail && required (Some (bcrypt_hash p BCRYPT_SALT_ROUNDS (fresh_salt fresh))));
      reduce; [|apply passwordsFrom_refl].
    rewrite existsb_find_byId.
    destruct (find (byId (fresh_oid fresh)) (users w)) eqn:Hid; reduce;
      [apply passwordsFrom_refl|].
    wp_go.
    assert (Happ : passwordsFrom (users w)
      (users w ++ [mkUserDocument (fresh_oid fresh)
                     (match tail with Some n => n | None => EmptyString end)
                     (bcrypt_hash p BCRYPT_SALT_ROUNDS (fresh_salt fresh))
                     default_roles])).
    { apply passwordsFrom_append. reduce. now exists p, (fresh_salt fresh). }
    match goal with |- if ?b then _ else _ => destruct b end; reduce.
    - rewrite replaceFirst_last by exact Hid. exact Happ.
    - exact Happ. }
  destruct name as [n|].
  - do 2 wp_go.
    destruct (find (byUsername n) (users w)); reduce.
    + wp_go. apply passwordsFrom_refl.
    + apply Hrest.
  - do 2 wp_go. apply Hrest.
Qed.

Lemma patchUserById_passwords (fresh : Fresh) (id : string)
  (partialUser : PartialUser) (w : World) :
  wp (patchUserById fresh id partialUser)
     (fun _ w' => passwordsFrom (users w) (users w')) w.
Proof.
  unfold patchUserById.
  do 2 wp_go.
  destruct (castObjectId id) as [oid|]; [|apply passwordsFrom_refl].
  destruct (find (byId oid) (users w)) as [u|] eqn:Hfind; reduce;
    [|wp_go; apply passwordsFrom_refl].
  destruct (find_byId_Some _ _ _ Hfind) as [_ Hoid]. subst oid.
  destruct partialUser as [name pw rs]; reduce.
  assert (Hsave : forall (doc : UserDocument) (tr : list Event),
    _id doc = _id u ->
    password doc = password u \/ isHash (password doc) ->
    wp (Document_save doc) (fun _ w' => passwordsFrom (users w) (users w'))
       (mkWorld (users w) tr)).
  { intros doc tr Hd Hp. wp_go.
    destruct (validateSync doc); reduce; [|apply passwordsFrom_refl].
    rewrite Hd. now apply (passwordsFrom_replace _ u). }
  assert (Hrest : forall u1 : UserDocument,
    _id u1 = _id u -> password u1 = password u ->
    wp (userDb2 <-
          (if truthy pw
           then h <- hashPassword (fresh_salt fresh) pw ;; ret (setPassword u1 h)
           else ret u1) ;;
        Document_save
          match rs with
          | Some rs0 => setRoles userDb2 rs0
          | None => userDb2
          end)
       (fun _ w' => passwordsFrom (users w) (users w')) w).
  { intros u1 Hid1 Hp1. wp_go.
    destruct (truthy pw) eqn:Hpw.
    - do 2 wp_go. destruct pw as [p|]; [|discriminate].
      wp_go. destruct rs; apply Hsave; auto;
        right; reduce; now exists p, (fresh_salt fresh).
    - wp_go. rewrite <- (world_eta w).
      destruct rs; apply Hsave; auto. }
  wp_go.
  destruct name as [newName|].
  - destruct (truthy (Some newName) && negb (newName =? username u)%string).
    + do 2 wp_go.
      destruct (find (byUsername newName) (users w)); reduce.
      * wp_go. apply passwordsFrom_refl.
      * wp_go. apply Hrest; auto.
    + wp_go. apply Hrest; auto.
  - wp_go. apply Hrest; auto.
Qed.

Lemma deleteUserById_passwords (id : string) (w : World) :
  wp (deleteUserById id) (fun _ w' => passwordsFrom (users w) (users w')) w.
Proof.
  unfold deleteUserById. do 2 wp_go.
  destruct (castObjectId id) as [oid|] eqn:Hcast; [|apply passwordsFrom_refl].
  destruct (existsb (byId oid) (users w)); reduce;
    [|wp_go; apply passwordsFrom_refl].
  do 2 wp_go. rewrite Hcast.
  destruct (find (byId oid) (users w)); wp_go;
    [apply passwordsFrom_remove | apply passwordsFrom_refl].
Qed.

(** X15 -- the directory stores hashes only.  After any sequence of
    create, replace, patch and delete requests, the password of every
    stored document is either a password some document had before the
    sequence or a string returned by the password hasher under the
    configured rounds: no request ever writes a password it was given as
    it was given. *)
Theorem stored_passwords_are_hashes (ops : list Operation) (w : World) :
  passwordsFrom (users w) (users (runAll ops w)).
Proof.
  revert w. induction ops as [|op ops IH]; intros w; cbn [runAll].
  - apply passwordsFrom_refl.
  - apply (passwordsFrom_trans _ (users (snd (perform op w)))); [|apply IH].
    destruct op; cbn [perform].
    + apply createUser_passwords.
    + rewrite updateUserById_as_patch. apply patchUserById_passwords.
    + apply patchUserById_passwords.
    + apply deleteUserById_passwords.
Qed.

(** X16 -- create, then validate the credentials.  After [createUser] has
    accepted a candidate with username [name] and password [pw]:
    [validateUser] with [name] and a password that bcrypt matches
    against the stored hash -- [pw] itself, whenever bcrypt matches a
    plaintext against its own hash -- returns the own properties of the
    new document, whose [_doc] is the document [createUser] inserted:
    the generated [_id], [name], the hash of [pw] and the default roles;
    with a password bcrypt does not match it returns null. *)
Theorem create_then_validate (fresh : Fresh) (candidate : PartialUser)
  (name pw : string) (w w' : World) :
  createUser fresh candidate w = (Ok tt, w') ->
  partial_username candidate = Some name ->
  partial_password candidate = Some pw ->
  (forall attempt,
     bcrypt_compare attempt
       (bcrypt_hash pw BCRYPT_SALT_ROUNDS (fresh_salt fresh)) = true ->
     validateUser name attempt w'
       = (Ok (Some (mkOwnProperties internalCache false
                      (mkUserDocument (fresh_oid fresh) name
                         (bcrypt_hash pw BCRYPT_SALT_ROUNDS (fresh_salt fresh))
                         ["user"%string]))),
          w')) /\
  (forall attempt,
     bcrypt_compare attempt
       (bcrypt_hash pw BCRYPT_SALT_ROUNDS (fresh_salt fresh)) = false ->
     validateUser name attempt w' = (Ok None, w')).
Proof.
  intros Hrun Hname Hpw.
  destruct (createUser_Ok _ _ _ _ Hrun)
    as (name' & pw' & Hname' & Hpw' & Hfree & _ & Hw').
  cbv zeta in Hw'.
  rewrite Hname in Hname'. injection Hname' as <-.
  rewrite Hpw in Hpw'. injection Hpw' as <-.
  assert (Hget : getUserByUsername name w'
    = (Ok (mkUserDocument (fresh_oid fresh) name
             (bcrypt_hash pw BCRYPT_SALT_ROUNDS (fresh_salt fresh)) default_roles),
       w')).
  { rewrite getUserByUsername_run. subst w'. reduce.
    rewrite (find_app_last _ _ _ Hfree); [reflexivity|].
    now apply byUsername_true. }
  split; intros attempt Hmatch;
    unfold validateUser, comparePassword, bind, ret;
    rewrite Hget; reduce; rewrite Hmatch; reflexivity.
Qed.

Lemma find_byUsername_removeFirst (oid : ObjectId) (u : UserDocument)
  (us : list UserDocument) :
  uniqueUsernames us ->
  find (byId oid) us = Some u ->
  find (byUsername (username u)) (removeFirst (byId oid) us) = None.
Proof.
  unfold uniqueUsernames. intros Hnd Hfind.
  destruct (find_split _ _ _ Hfind) as (l1 & l2 & -> & _ & Hrem).
  rewrite Hrem. apply find_byUsername_None.
  rewrite map_app in *. simpl in Hnd.
  now apply NoDup_remove_2 in Hnd.
Qed.

Lemma find_byId_removeFirst_None (oid oid' : ObjectId) (us : list UserDocument) :
  find (byId oid') us = None ->
  find (byId oid') (removeFirst (byId oid) us) = None.
Proof.
  induction us as [|d us IH]; simpl; [reflexivity|].
  destruct (byId oid' d) eqn:E'; [discriminate|].
  intros Hnone. destruct (byId oid d); [exact Hnone|].
  simpl. rewrite E'. now apply IH.
Qed.

(** X18 -- delete frees the username.  In a store with distinct
    usernames, once [deleteUserById] has removed the document an id
    denotes, a candidate with that document's username is accepted by
    [createUser] (its username being non-empty, the hash of its password
    non-empty and the generated ObjectId not in use), although it would
    have met Conflict before the delete; the lookup by that username then
    returns the new document. *)
Theorem delete_frees_username (fresh : Fresh) (id : string) (u : UserDocument)
  (pw : string) (rs : option (list string)) (w : World) :
  uniqueUsernames (users w) ->
  castObjectId id = Some (_id u) ->
  find (byId (_id u)) (users w) = Some u ->
  username u <> EmptyString ->
  bcrypt_hash pw BCRYPT_SALT_ROUNDS (fresh_salt fresh) <> EmptyString ->
  find (byId (fresh_oid fresh)) (users w) = None ->
  let candidate := mkPartialUser (Some (username u)) (Some pw) rs in
  let doc := mkUserDocument (fresh_oid fresh) (username u)
               (bcrypt_hash pw BCRYPT_SALT_ROUNDS (fresh_salt fresh))
               default_roles in
  fst (createUser fresh candidate w)
    = Throw (ConflictException ("Username " ++ username u ++ " already exists")) /\
  exists w1 w2,
    deleteUserById id w = (Ok tt, w1) /\
    createUser fresh candidate w1 = (Ok tt, w2) /\
    getUserByUsername (username u) w2 = (Ok doc, w2).
Proof.
  intros Hu Hcast Hfind Hne Hhash Hid candidate doc. split.
  - unfold createUser. subst candidate. run_model.
    destruct (find (byUsername (username u)) (users w)) eqn:Hname; reduce;
      [reflexivity|].
    exfalso. apply find_byUsername_None in Hname. apply Hname.
    apply in_map. now apply (find_byId_Some _ _ _ Hfind).
  - eexists. eexists. split; [|split].
    + apply wp_equation. unfold deleteUserById.
      do 2 wp_go. rewrite Hcast, existsb_find_byId, Hfind. reduce.
      do 2 wp_go. rewrite Hcast, Hfind. wp_go. split; reflexivity.
    + subst candidate. apply createUser_accepts; reduce; auto.
      * now apply find_byUsername_removeFirst.
      * now apply find_byId_removeFirst_None.
    + rewrite getUserByUsername_run. reduce.
      rewrite (find_app_last _ doc).
      * reflexivity.
      * now apply find_byUsername_removeFirst.
      * now apply byUsername_true.
Qed.

End MoreDirectoryFacts.

(* ================================================================== *)
(** * Further properties of authentication and authorization *)
(* ================================================================== *)

(** X25 -- what [RolesGuard.canActivate] decides.  The guard lets a
    request pass exactly when neither the handler nor the class declares
    a role list, or the list in force -- the handler's when it declares
    one, the class's otherwise -- names a role that the roles of the
    request's user contain.  So under a declared list a request without
    a user, or with a user that has no role list, never passes. *)
Theorem canActivate_iff (handlerMeta classMeta : option (list Role.t))
  (user : option Identity) :
  canActivate handlerMeta classMeta user = true <->
  (handlerMeta = None /\ classMeta = None) \/
  exists rs role u userRoles,
    (handlerMeta = Some rs \/ (handlerMeta = None /\ classMeta = Some rs)) /\
    user = Some u /\
    identity_roles u = Some userRoles /\
    In role rs /\ In role userRoles.
Proof.
  unfold canActivate, getAllAndOverride. split.
  - destruct handlerMeta as [rs|]; [|destruct classMeta as [rs|]];
      try (intros _; left; now split);
      intros H; right; apply existsb_exists in H; destruct H as [role [Hin Hhas]];
      unfold userHasRole in Hhas;
      destruct user as [u|]; try discriminate;
      destruct (identity_roles u) as [userRoles|] eqn:Hroles; try discriminate;
      apply includes_In in Hhas;
      exists rs, role, u, userRoles; repeat split; auto.
  - intros [[-> ->] | (rs & role & u & userRoles & Hmeta & -> & Hroles & Hin & Hhas)];
      [reflexivity|].
    assert (Hex : existsb (userHasRole (Some u)) rs = true).
    { apply existsb_exists. exists role. split; [exact Hin|].
      unfold userHasRole. rewrite Hroles. now apply includes_In. }
    destruct Hmeta as [-> | [-> ->]]; exact Hex.
Qed.

Section MoreAuthFacts.

Context {bcrypt : Bcrypt} {config : ConfigService} {jwt : JwtService}.

Lemma canActivate_after_token (handlerMeta : option (list Role.t))
  (payload : JwtPayload) :
  canActivate handlerMeta None (Some (JwtStrategy_validate payload)) = true <->
  handlerMeta = None \/
  exists rs role, handlerMeta = Some rs /\ In role rs /\
                  In role (payload_roles payload).
Proof.
  destruct handlerMeta as [rs|].
  - change (Some rs) with (HasRoles rs) at 1. rewrite canActivate_declared. split.
    + intros [role [Hin Hhas]]. right. exists rs, role.
      cbn in Hhas. apply includes_In in Hhas. auto.
    + intros [Hnone | (rs' & role & [= <-] & Hin & Hhas)]; [discriminate|].
      exists role. split; [exact Hin|]. cbn. now apply includes_In.
  - split; [now left | reflexivity].
Qed.

Lemma guardedHandler_run (handlerMeta : option (list Role.t)) (req : Request)
  (token : string) (payload : JwtPayload) :
  bearer req = Some token ->
  jwt_verify token = Some payload ->
  guardedHandler handlerMeta req =
  if canActivate handlerMeta None (Some (JwtStrategy_validate payload))
  then Ok (mkResponse OK (Some (JwtStrategy_validate payload)))
  else Throw (ForbiddenException "Forbidden resource").
Proof.
  intros Hbearer Hverify.
  unfold guardedHandler, RolesGuard, JwtAuthGuard.
  rewrite Hbearer, Hverify. cbn [req_user].
  now destruct (canActivate handlerMeta None (Some (JwtStrategy_validate payload))).
Qed.

(** X22 -- a guarded endpoint answers only verified, entitled callers.
    A handler behind [JwtAuthGuard] and [RolesGuard] answers a request
    exactly when the request bears a token that verifies, and the handler
    declares no role list or declares one that names a role of the
    token's payload; the answer is then status 200 with the identity read
    off that payload. *)
Theorem guardedHandler_answers_iff (handlerMeta : option (list Role.t))
  (req : Request) (r : Response (option Identity)) :
  guardedHandler handlerMeta req = Ok r <->
  exists token payload,
    bearer req = Some token /\
    jwt_verify token = Some payload /\
    r = mkResponse OK (Some (mkIdentity (sub payload) (payload_username payload)
                               (Some (payload_roles payload)))) /\
    (handlerMeta = None \/
     exists rs role, handlerMeta = Some rs /\ In role rs /\
                     In role (payload_roles payload)).
Proof.
  split.
  - intros Hrun.
    destruct (bearer req) as [token|] eqn:Hbearer;
      [|unfold guardedHandler, JwtAuthGuard in Hrun; rewrite Hbearer in Hrun;
        discriminate].
    destruct (jwt_verify token) as [payload|] eqn:Hverify;
      [|unfold guardedHandler, JwtAuthGuard in Hrun;
        rewrite Hbearer, Hverify in Hrun; discriminate].
    rewrite (guardedHandler_run _ _ _ _ Hbearer Hverify) in Hrun.
    destruct (canActivate handlerMeta None (Some (JwtStrategy_validate payload)))
      eqn:Hact; [|discriminate].
    injection Hrun as <-.
    exists token, payload.
    split; [auto|]. split; [auto|]. split; [reflexivity|].
    now apply canActivate_after_token.
  - intros (token & payload & Hbearer & Hverify & -> & Hmeta).
    rewrite (guardedHandler_run _ _ _ _ Hbearer Hverify).
    assert (Hact : canActivate handlerMeta None (Some (JwtStrategy_validate payload)) = true).
    { now apply canActivate_after_token. }
    now rewrite Hact.
Qed.

(** X23 -- authentication comes before authorization.  A request that
    bears no token, or a token that does not verify, is rejected with
    Unauthorized by the profile endpoint and by every guarded handler,
    whatever role list the handler declares: the roles are not
    consulted. *)
Theorem unauthenticated_is_unauthorized (handlerMeta : option (list Role.t))
  (req : Request) :
  bearer req = None \/
  (exists token, bearer req = Some token /\ jwt_verify token = None) ->
  guardedHandler handlerMeta req = Throw (UnauthorizedException "Unauthorized") /\
  getProfile req = Throw (UnauthorizedException "Unauthorized").
Proof.
  unfold guardedHandler, getProfile, JwtAuthGuard.
  intros [Hnone | (token & Hbearer & Hverify)].
  - now rewrite Hnone.
  - now rewrite Hbearer, Hverify.
Qed.

(** X24 -- from login to the role-gated endpoints.  In a store with
    distinct usernames, let [u] be a stored document whose token, as
    [login] signs it, verifies to the payload that was signed.  A request
    bearing that token is answered by the profile endpoint; by the admin
    endpoint when [u]'s stored roles contain "admin" and rejected with
    Forbidden when they do not; and likewise by the user endpoint for
    "user".  The password submitted at login plays no part. *)
Theorem login_then_role_endpoints (w : World) (u : UserDocument) (pw : string) :
  In u (users w) ->
  uniqueUsernames (users w) ->
  jwt_verify (jwt_sign (mkJwtPayload (username u) (_id u) (roles u)))
    = Some (mkJwtPayload (username u) (_id u) (roles u)) ->
  let token := jwt_sign (mkJwtPayload (username u) (_id u) (roles u)) in
  let req := mkRequest (Some token) None in
  let answer := Ok (mkResponse OK
                      (Some (mkIdentity (_id u) (username u) (Some (roles u))))) in
  login (mkLoginBody (username u) pw) w = (Ok (mkAccessToken token), w) /\
  getProfile req = answer /\
  (In Role.Admin (roles u) -> onlyAdmin req = answer) /\
  (~ In Role.Admin (roles u) ->
   onlyAdmin req = Throw (ForbiddenException "Forbidden resource")) /\
  (In Role.User (roles u) -> onlyUser req = answer) /\
  (~ In Role.User (roles u) ->
   onlyUser req = Throw (ForbiddenException "Forbidden resource")).
Proof.
  intros Hin Hu Hverify token req answer.
  assert (Hgate : forall role,
    (In role (roles u) -> guardedHandler (HasRoles [role]) req = answer) /\
    (~ In role (roles u) ->
     guardedHandler (HasRoles [role]) req
       = Throw (ForbiddenException "Forbidden resource"))).
  { intros role.
    rewrite (guardedHandler_run (HasRoles [role]) req token _ eq_refl Hverify).
    unfold canActivate, HasRoles. cbn [getAllAndOverride existsb userHasRole
      JwtStrategy_validate identity_roles payload_roles].
    rewrite orb_false_r.
    destruct (includes (roles u) role) eqn:Hinc.
    - split; [reflexivity|]. intros Hnot. apply includes_In in Hinc. contradiction.
    - split; [|reflexivity]. intros Hhas. apply includes_In in Hhas. congruence. }
  split; [|split].
  - unfold login, bind, ret. cbn [body_username].
    rewrite getUserByUsername_run, (find_byUsername_unique _ _ Hu Hin).
    reflexivity.
  - unfold getProfile, JwtAuthGuard. subst req token. cbn [bearer].
    rewrite Hverify. reflexivity.
  - unfold onlyAdmin, onlyUser.
    destruct (Hgate Role.Admin) as [Ha1 Ha2].
    destruct (Hgate Role.User) as [Hu1 Hu2]. auto.
Qed.

(** X20 -- the local strategy authenticates on a bcrypt match only.
    [LocalStrategy.validate] returns exactly when the first stored
    document with the submitted username exists and bcrypt matches the
    submitted password against its stored hash; what it returns is what
    [validateUser] copied from that document -- its [$__], its [$isNew]
    and its [_doc], the stored password hash still inside -- and the
    world is as it was. *)
Theorem LocalStrategy_validate_iff (name pw : string) (w w' : World)
  (r : OwnProperties) :
  LocalStrategy_validate name pw w = (Ok r, w') <->
  w' = w /\
  exists u,
    find (byUsername name) (users w) = Some u /\
    bcrypt_compare pw (password u) = true /\
    r = mkOwnProperties internalCache false u.
Proof.
  unfold LocalStrategy_validate, validateUser, comparePassword, bind, ret, throw.
  rewrite getUserByUsername_run.
  destruct (find (byUsername name) (users w)) as [u|] eqn:Hfind.
  - destruct (bcrypt_compare pw (password u)) eqn:Hmatch.
    + split.
      * intros [= <- <-]. split; [reflexivity|]. now exists u.
      * intros [-> (u0 & [= <-] & _ & ->)]. reflexivity.
    + split; [discriminate|].
      intros [_ (u0 & [= <-] & Hm & _)]. congruence.
  - split; [discriminate|]. intros [_ (u0 & Hf & _)]. discriminate.
Qed.

(** X17 -- create, then log in.  After [createUser] has accepted a
    candidate with username [name], whatever roles the candidate asked
    for, [login] with [name] and any password succeeds, leaves the world
    as it is, and signs the payload of the new document: [name], the
    ObjectId generated for it, and the roles ["user"] alone. *)
Theorem create_then_login (fresh : Fresh) (candidate : PartialUser)
  (name pw : string) (w w' : World) :
  createUser fresh candidate w = (Ok tt, w') ->
  partial_username candidate = Some name ->
  login (mkLoginBody name pw) w'
    = (Ok (mkAccessToken
             (jwt_sign (mkJwtPayload name (fresh_oid fresh) ["user"%string]))), w').
Proof.
  intros Hrun Hname.
  destruct (createUser_Ok _ _ _ _ Hrun)
    as (name' & pw' & Hname' & _ & Hfree & _ & Hw').
  cbv zeta in Hw'.
  rewrite Hname in Hname'. injection Hname' as <-.
  unfold login, bind, ret. cbn [body_username].
  rewrite getUserByUsername_run. subst w'. reduce.
  rewrite (find_app_last _ _ _ Hfree); [reflexivity|].
  now apply byUsername_true.
Qed.

(** X19 -- the reading operations never write.  Listing the users (in
    the service and at the endpoint), getting one by id or by username,
    validating credentials, the local strategy and [login] all leave the
    world exactly as they found it, whether they return or throw: no
    document is written and nothing is hashed. *)
Theorem reading_operations_never_write (w : World) :
  snd (getAllUsers w) = w /\
  snd (UserController_getAllUsers w) = w /\
  (forall id, snd (getUserById id w) = w) /\
  (forall name, snd (getUserByUsername name w) = w) /\
  (forall name pw, snd (validateUser name pw w) = w) /\
  (forall name pw, snd (LocalStrategy_validate name pw w) = w) /\
  (forall body, snd (login body w) = w).
Proof.
  assert (Hget : forall name, snd (getUserByUsername name w) = w).
  { intros name. now rewrite getUserByUsername_run. }
  assert (Hval : forall name pw, snd (validateUser name pw w) = w).
  { intros name pw. unfold validateUser, comparePassword, bind, ret.
    rewrite getUserByUsername_run.
    destruct (find (byUsername name) (users w)) as [u|]; [|reflexivity].
    now destruct (bcrypt_compare pw (password u)). }
  assert (Hloc : forall name pw, snd (LocalStrategy_validate name pw w) = w).
  { intros name pw.
    unfold LocalStrategy_validate, validateUser, comparePassword, bind, ret, throw.
    rewrite getUserByUsername_run.
    destruct (find (byUsername name) (users w)) as [u|]; [|reflexivity].
    now destruct (bcrypt_compare pw (password u)). }
  assert (Hlogin : forall body, snd (login body w) = w).
  { intros body. unfold login, bind, ret. rewrite getUserByUsername_run.
    now destruct (find (byUsername (body_username body)) (users w)). }
  repeat split; auto.
  - unfold UserController_getAllUsers, getAllUsers, Model_find, getUsers, bind, ret.
    now destruct (length (users w) =? 0)%nat.
  - intros id. unfold getUserById, isValid, Model_findById.
    destruct (castObjectId id) as [oid|]; [|reflexivity].
    run_model. now destruct (find (byId oid) (users w)).
Qed.

End MoreAuthFacts.

(* ================================================================== *)
(** * The properties at the test doubles *)
(* ================================================================== *)

#[local] Existing Instance mockBcrypt.
#[local] Existing Instance mockConfig.
#[local] Existing Instance mockJwt.

Lemma mockWorld_unique : uniqueUsernames (users mockWorld).
Proof.
  unfold uniqueUsernames. cbn.
  repeat constructor; cbn; intuition discriminate.
Defined.

(** C1, as stated, fails: the token check of [userRequest] succeeds and
    the handler declares the empty role list, yet the request is not
    answered but rejected with Forbidden. *)
Lemma empty_role_list_rejects :
  JwtAuthGuard userRequest
    = Ok (mkRequest (Some "jwt-user"%string)
            (Some (mkIdentity testuserId "testuser" (Some ["user"%string])))) /\
  canActivate (HasRoles []) None
    (Some (mkIdentity testuserId "testuser" (Some ["user"%string]))) = false /\
  guardedHandler (HasRoles []) userRequest
    = Throw (ForbiddenException "Forbidden resource").
Proof. repeat split. Qed.

Lemma roles_guard_after_token_check_witness :
  guardedHandler None userRequest
    = Ok (mkResponse OK (Some (JwtStrategy_validate testuserPayload))) /\
  (forall rs role,
     In role rs -> In role (payload_roles testuserPayload) ->
     guardedHandler (HasRoles rs) userRequest
       = Ok (mkResponse OK (Some (JwtStrategy_validate testuserPayload)))) /\
  (forall rs,
     (forall role, In role rs -> ~ In role (payload_roles testuserPayload)) ->
     guardedHandler (HasRoles rs) userRequest
       = Throw (ForbiddenException "Forbidden resource")) /\
  guardedHandler (HasRoles []) userRequest
    = Throw (ForbiddenException "Forbidden resource").
Proof.
  exact (roles_guard_after_token_check userRequest "jwt-user" testuserPayload
           eq_refl eq_refl).
Defined.

(** The endpoints of [AuthController] on the token of a plain user. *)
Example user_token_on_the_endpoints :
  onlyAdmin userRequest = Throw (ForbiddenException "Forbidden resource") /\
  onlyUser userRequest
    = Ok (mkResponse OK (Some (mkIdentity testuserId "testuser" (Some ["user"%string])))) /\
  getProfile userRequest
    = Ok (mkResponse OK (Some (mkIdentity testuserId "testuser" (Some ["user"%string])))) /\
  onlyAdmin (mkRequest None None) = Throw (UnauthorizedException "Unauthorized").
Proof. repeat split. Qed.

Lemma login_claims_witness :
  exists token,
    login (mkLoginBody "testuser" "not the password") mockWorld
      = (Ok (mkAccessToken token), mockWorld) /\
    token = jwt_sign testuserPayload /\
    JwtAuthGuard (mkRequest (Some token) None)
      = Ok (mkRequest (Some token)
              (Some (mkIdentity testuserId "testuser" (Some ["user"%string])))).
Proof.
  exact (login_claims mockWorld testuser "not the password"
           (or_introl eq_refl) mockWorld_unique eq_refl).
Defined.

Example validateUser_examples :
  validateUser "testuser" "password123" mockWorld
    = (Ok (Some (mkOwnProperties internalCache false testuser)), mockWorld) /\
  password (_doc (mkOwnProperties internalCache false testuser))
    = "$2b$salt$password123"%string /\
  validateUser "testuser" "wrongpassword" mockWorld = (Ok None, mockWorld) /\
  validateUser "nonexistentuser" "password123" mockWorld
    = (Throw (NotFoundException "User with name nonexistentuser does not exist"),
       mockWorld) /\
  LocalStrategy_validate "testuser" "wrongpassword" mockWorld
    = (Throw (UnauthorizedException "Invalid credentials"), mockWorld).
Proof. repeat split. Qed.

Lemma createUser_conflict_witness :
  createUser mockFresh
    (mkPartialUser (Some "testuser"%string) (Some "another"%string)
                   (Some ["admin"%string]))
    mockWorld
  = (Throw (ConflictException "Username testuser already exists"), mockWorld).
Proof.
  exact (createUser_conflict mockFresh
           (mkPartialUser (Some "testuser"%string) (Some "another"%string)
                          (Some ["admin"%string]))
           mockWorld testuser (or_introl eq_refl) eq_refl).
Defined.

Lemma username_uniqueness_preserved_witness :
  uniqueUsernames (users (runAll sampleOperations mockWorld)).
Proof.
  exact (username_uniqueness_preserved sampleOperations mockWorld mockWorld_unique).
Defined.

Example sampleOperations_result :
  map username (users (runAll sampleOperations mockWorld))
    = ["renamed"%string; "adminUser"%string; "newuser"%string].
Proof. reflexivity. Qed.

(** C6, as stated, fails: the listing of [mockWorld] answers 200 with
    records that carry the stored password hashes. *)
Lemma getAllUsers_not_redacted :
  exists r,
    UserController_getAllUsers mockWorld = (Ok r, mockWorld) /\
    status r = 200 /\
    map json_password (json r)
      = [Some "$2b$salt$password123"%string; Some "$2b$salt$adminPass"%string] /\
    ~ redacted r.
Proof.
  eexists. repeat split.
  unfold redacted. cbn. intros H. inversion H as [|? ? Hp _]. discriminate Hp.
Qed.

Lemma patch_frame_witness :
  (forall rs : list string,
     let u' := mkUserDocument testuserId "testuser" "$2b$salt$password123" rs in
     let w' := mkWorld (replaceFirst (byId testuserId) u' (users mockWorld))
                       (trace mockWorld ++ [EvSave u']) in
     patchUserById mockFresh testuserIdString (mkPartialUser None None (Some rs))
       mockWorld = (Ok tt, w') /\
     find (byId testuserId) (users w') = Some u') /\
  (let w' := mkWorld (replaceFirst (byId testuserId) testuser (users mockWorld))
                     (trace mockWorld ++ [EvSave testuser]) in
   patchUserById mockFresh testuserIdString
     (mkPartialUser (Some "testuser"%string) None None) mockWorld = (Ok tt, w') /\
   find (byId testuserId) (users w') = Some testuser).
Proof.
  exact (patch_frame mockFresh testuserIdString testuser mockWorld
           eq_refl eq_refl eq_refl).
Defined.

Lemma created_password_is_hashed_witness :
  exists name plaintext doc,
    partial_username adminCandidate = Some name /\
    partial_password adminCandidate = Some plaintext /\
    getUserByUsername name worldAfterCreate = (Ok doc, worldAfterCreate) /\
    password doc = bcrypt_hash plaintext BCRYPT_SALT_ROUNDS (fresh_salt mockFresh) /\
    (bcrypt_hash plaintext BCRYPT_SALT_ROUNDS (fresh_salt mockFresh) <> plaintext ->
     password doc <> plaintext).
Proof.
  exact (created_password_is_hashed mockFresh adminCandidate mockWorld
           worldAfterCreate eq_refl).
Defined.

Lemma created_roles_are_default_witness :
  exists name doc,
    partial_username adminCandidate = Some name /\
    users worldAfterCreate = users mockWorld ++ [doc] /\
    username doc = name /\
    roles doc = ["user"%string] /\
    getUserByUsername name worldAfterCreate = (Ok doc, worldAfterCreate).
Proof.
  exact (created_roles_are_default mockFresh adminCandidate mockWorld
           worldAfterCreate eq_refl).
Defined.

(** The accepted create of [adminCandidate]: what it leaves in the world,
    and what the lookup then returns. *)
Example createUser_example :
  createUser mockFresh adminCandidate mockWorld = (Ok tt, worldAfterCreate) /\
  getUserByUsername "newuser" worldAfterCreate = (Ok createdDocument, worldAfterCreate) /\
  password createdDocument <> "password123"%string /\
  roles createdDocument = ["user"%string].
Proof. repeat split. discriminate. Qed.

(** delete on ids that are well formed, as the end-to-end tests have it. *)
Example deleteUserById_examples :
  deleteUserById absentId mockWorld
    = (Throw (NotFoundException
                "User with id 60d5f9f5319a5c1d4c8e7b60 does not exist"), mockWorld) /\
  deleteUserById testuserIdString mockWorld
    = (Ok tt, mkWorld [adminUser] [EvDelete testuserId]) /\
  getUserById testuserIdString (mkWorld [adminUser] [EvDelete testuserId])
    = (Throw (NotFoundException
                "User with id 000000000000000000000001 does not exist"),
       mkWorld [adminUser] [EvDelete testuserId]).
Proof. repeat split. Qed.

(* ================================================================== *)
(** * The further properties at the test doubles *)
(* ================================================================== *)

Lemma mockWorld_uniqueIds : uniqueIds (users mockWorld).
Proof.
  unfold uniqueIds. cbn.
  repeat constructor; cbn; intuition discriminate.
Defined.

Lemma mockWorld_schemaValid : schemaValid (users mockWorld).
Proof. unfold schemaValid. cbn. repeat constructor. Defined.

Lemma deleteUserById_wellformed_witness :
  deleteUserById testuserIdString mockWorld
    = (Ok tt, mkWorld [adminUser] [EvDelete testuserId]).
Proof.
  exact (proj1 (proj2 (deleteUserById_wellformed testuserIdString testuserId
                         mockWorld eq_refl) testuser eq_refl)).
Defined.

Lemma writes_on_malformed_id_witness :
  patchUserById mockFresh "invalidUserId"
    (mkPartialUser None None (Some ["admin"%string])) mockWorld
  = (Throw (CastError "invalidUserId"), mockWorld).
Proof.
  exact (proj1 (proj2 (writes_on_malformed_id mockFresh "invalidUserId"
                         (mkUser "updatedUser" "newPassword" ["user"%string])
                         (mkPartialUser None None (Some ["admin"%string]))
                         mockWorld eq_refl))).
Defined.

(** A candidate without a username: its password is hashed, then the
    schema rejects it. *)
Lemma failed_request_keeps_collection_witness :
  users (snd (perform
                (OpCreate mockFresh
                   (mkPartialUser None (Some "password123"%string) None))
                mockWorld))
  = users mockWorld.
Proof.
  exact (failed_request_keeps_collection
           (OpCreate mockFresh
              (mkPartialUser None (Some "password123"%string) None))
           mockWorld ValidationError eq_refl).
Defined.

Lemma ids_stay_distinct_witness :
  uniqueIds (users (runAll sampleOperations mockWorld)).
Proof.
  exact (ids_stay_distinct sampleOperations mockWorld mockWorld_uniqueIds).
Defined.

Lemma documents_stay_valid_witness :
  schemaValid (users (runAll sampleOperations mockWorld)).
Proof.
  exact (documents_stay_valid sampleOperations mockWorld mockWorld_schemaValid).
Defined.

Example createUser_accepts_example :
  exists w', createUser mockFresh adminCandidate mockWorld = (Ok tt, w') /\
             w' = worldAfterCreate.
Proof. eexists. split; reflexivity. Qed.

Lemma update_and_patch_not_found_witness :
  patchUserById mockFresh absentId
    (mkPartialUser (Some "updatedUser1"%string) None None) mockWorld
  = (Throw (NotFoundException
              "User with id 60d5f9f5319a5c1d4c8e7b60 does not exist"), mockWorld).
Proof.
  exact (proj2 (update_and_patch_not_found mockFresh absentId _
                  (mkUser "updatedUser1" "updatedPassword1" ["user"%string])
                  (mkPartialUser (Some "updatedUser1"%string) None None)
                  mockWorld eq_refl eq_refl)).
Defined.

Lemma update_and_patch_conflict_witness :
  updateUserById mockFresh testuserIdString
    (mkUser "adminUser" "updatedPassword2" ["user"%string; "admin"%string])
    mockWorld
  = (Throw (ConflictException "Username adminUser already exists"), mockWorld).
Proof.
  exact (proj1 (update_and_patch_conflict mockFresh testuserIdString testuser
                  adminUser "adminUser" mockWorld eq_refl eq_refl
                  ltac:(discriminate) ltac:(discriminate) eq_refl)
           "updatedPassword2"%string ["user"%string; "admin"%string]).
Defined.

Lemma patch_password_only_witness :
  patchUserById mockFresh testuserIdString
    (mkPartialUser None (Some "newPassword"%string) None) mockWorld
  = (Ok tt,
     mkWorld
       [mkUserDocument testuserId "testuser" "$2b$salt$newPassword" ["user"%string];
        adminUser]
       [EvHash "newPassword";
        EvSave (mkUserDocument testuserId "testuser" "$2b$salt$newPassword"
                  ["user"%string])]).
Proof.
  exact (proj1 (patch_password_only mockFresh testuserIdString testuser mockWorld
                  eq_refl eq_refl eq_refl)
           "newPassword"%string ltac:(discriminate) ltac:(discriminate)).
Defined.

Lemma patch_rename_lookup_witness :
  getUserByUsername "testuser"
    (mkWorld
       [mkUserDocument testuserId "renamed" "$2b$salt$password123" ["user"%string];
        adminUser]
       [EvSave (mkUserDocument testuserId "renamed" "$2b$salt$password123"
                  ["user"%string])])
  = (Throw (NotFoundException "User with name testuser does not exist"),
     mkWorld
       [mkUserDocument testuserId "renamed" "$2b$salt$password123" ["user"%string];
        adminUser]
       [EvSave (mkUserDocument testuserId "renamed" "$2b$salt$password123"
                  ["user"%string])]).
Proof.
  exact (proj2 (proj2 (patch_rename_lookup mockFresh testuserIdString testuser
                         "renamed" mockWorld mockWorld_unique eq_refl eq_refl
                         eq_refl ltac:(discriminate) ltac:(discriminate) eq_refl))).
Defined.

Lemma update_replaces_every_field_witness :
  updateUserById mockFresh testuserIdString
    (mkUser "updatedUser1" "updatedPassword1" ["user"%string; "admin"%string])
    mockWorld
  = (Ok tt,
     mkWorld
       [mkUserDocument testuserId "updatedUser1" "$2b$salt$updatedPassword1"
          ["user"%string; "admin"%string];
        adminUser]
       [EvHash "updatedPassword1";
        EvSave (mkUserDocument testuserId "updatedUser1"
                  "$2b$salt$updatedPassword1" ["user"%string; "admin"%string])]).
Proof.
  exact (update_replaces_every_field mockFresh testuserIdString testuser
           "updatedUser1" "updatedPassword1" ["user"%string; "admin"%string]
           mockWorld eq_refl eq_refl ltac:(discriminate) (or_intror eq_refl)
           ltac:(discriminate) ltac:(discriminate)).
Defined.

Lemma update_ignores_empty_strings_witness :
  updateUserById mockFresh testuserIdString
    (mkUser EmptyString EmptyString ["admin"%string]) mockWorld
  = (Ok tt,
     mkWorld
       [mkUserDocument testuserId "testuser" "$2b$salt$password123" ["admin"%string];
        adminUser]
       [EvSave (mkUserDocument testuserId "testuser" "$2b$salt$password123"
                  ["admin"%string])]).
Proof.
  exact (update_ignores_empty_strings mockFresh testuserIdString testuser
           ["admin"%string] mockWorld eq_refl eq_refl eq_refl).
Defined.

Lemma create_then_validate_witness :
  validateUser "newuser" "password123" worldAfterCreate
    = (Ok (Some (mkOwnProperties internalCache false createdDocument)),
       worldAfterCreate).
Proof.
  exact (proj1 (create_then_validate mockFresh adminCandidate "newuser"
                  "password123" mockWorld worldAfterCreate eq_refl eq_refl eq_refl)
           "password123"%string eq_refl).
Defined.

Lemma create_then_login_witness :
  login (mkLoginBody "newuser" "anything") worldAfterCreate
    = (Ok (mkAccessToken
             (jwt_sign (mkJwtPayload "newuser" 3%N ["user"%string]))),
       worldAfterCreate).
Proof.
  exact (create_then_login mockFresh adminCandidate "newuser" "anything"
           mockWorld worldAfterCreate eq_refl eq_refl).
Defined.

Lemma delete_frees_username_witness :
  exists w1 w2,
    deleteUserById testuserIdString mockWorld = (Ok tt, w1) /\
    createUser mockFresh
      (mkPartialUser (Some "testuser"%string) (Some "pass1"%string) None) w1
      = (Ok tt, w2) /\
    getUserByUsername "testuser" w2
      = (Ok (mkUserDocument 3%N "testuser" "$2b$salt$pass1" ["user"%string]), w2).
Proof.
  exact (proj2 (delete_frees_username mockFresh testuserIdString testuser
                  "pass1" None mockWorld mockWorld_unique eq_refl eq_refl
                  ltac:(discriminate) ltac:(discriminate) eq_refl)).
Defined.

Lemma unauthenticated_is_unauthorized_witness :
  onlyAdmin (mkRequest (Some "forged"%string) None)
    = Throw (UnauthorizedException "Unauthorized").
Proof.
  exact (proj1 (unauthenticated_is_unauthorized (HasRoles [Role.Admin])
                  (mkRequest (Some "forged"%string) None)
                  (or_intror (ex_intro _ "forged"%string (conj eq_refl eq_refl))))).
Defined.

Lemma login_then_role_endpoints_witness :
  login (mkLoginBody "adminUser" "not checked here") mockWorld
    = (Ok (mkAccessToken "jwt-admin"), mockWorld) /\
  onlyAdmin adminRequest
    = Ok (mkResponse OK (Some (mkIdentity adminId "adminUser" (Some ["admin"%string])))) /\
  onlyUser adminRequest = Throw (ForbiddenException "Forbidden resource").
Proof.
  pose proof (login_then_role_endpoints mockWorld adminUser "not checked here"
                (or_intror (or_introl eq_refl)) mockWorld_unique eq_refl) as H.
  cbv zeta in H. destruct H as (Hlogin & _ & Hadmin & _ & _ & Huser).
  split; [exact Hlogin|]. split.
  - apply Hadmin. cbn. now left.
  - apply Huser. cbn. intuition discriminate.
Defined.
